(** * Air hockey environment: the step / reset / observation / reward logic

    A shallow embedding of [part3/air_hockey_env.py] (class [AirHockeyEnv])
    and the properties of its simulation loop.

    Numbers.  The Python code computes with floats; here every float is an
    exact rational ([Q]), so comparisons, clamping and the reward arithmetic
    are the ones of the source and rounding is left out.  The step counter
    is a Python [int], here [Z].

    Physics.  The rigid-body engine (pymunk) is an external library.  Its two
    entry points used by the environment, [Space.step] and
    [Body.apply_force_at_local_point], are the interface [Pymunk]; every
    theorem about [step] holds for all its instances.  One small instance,
    [Ballistic], serves concrete runs.

    Rendering (pygame) touches only the window, clock and font and is left
    out.

    The play-mode driver [play_game] of [part3/air_hockey.py] is embedded
    as far as it computes on the environment: the mirrored observation, one
    frame of the loop and the end-of-game banner.  The policy
    ([model.predict]) and the mouse are inputs. *)

From Stdlib Require Import String.
From Stdlib Require Import QArith Qminmax Qabs Lqa ZArith List Lia Bool.
Import ListNotations.

Local Open Scope Q_scope.

(* ===================================================================== *)
(** ** Data model *)

(** [pymunk.Vec2d]: a point or vector with fields [.x] and [.y]. *)
Record Vec2d : Type := mkVec2d { x : Q; y : Q }.

(** [pymunk.Body]: what the environment reads and writes of a rigid body.
    [force] is the force handed to the engine since its last step. *)
Record Body : Type := mkBody {
  position : Vec2d;
  velocity : Vec2d;
  force : Vec2d
}.

(** The bodies of [self.space] that the environment keeps a reference to.
    In the source [self.ball], [self.ai_paddle] and [self.agent_paddle] are
    circle shapes and every access goes through [.body]; the walls and the
    pivot joint are fixed data of the engine. *)
Record Space : Type := mkSpace {
  ball : Body;
  ai_paddle : Body;
  agent_paddle : Body;
  mouse_body : Body
}.

(** The attributes of an [AirHockeyEnv] that change after [__init__]. *)
Record AirHockeyEnv : Type := mkEnv {
  with_bot : bool;
  space : Space;
  steps : Z
}.

(** Attributes set once in [__init__]. *)
Definition width : Q := 500.
Definition height : Q := 700.
Definition paddle_radius : Q := 25.
Definition ball_radius : Q := 15.
Definition goal_width : Q := 180.

(** A numpy array of floats of one dimension. *)
Definition ndarray : Type := list Q.

(** The five-tuple returned by [step], without the empty info dict. *)
Record StepResult : Type := mkStepResult {
  obs : ndarray;
  reward : Q;
  terminated : bool;
  truncated : bool
}.

(* ===================================================================== *)
(** ** Exceptions and the environment monad *)

Inductive Exn : Type := IndexError.

(** A method of the environment: reads and updates [self], and either
    returns a value or raises. *)
Definition Env (A : Type) : Type := AirHockeyEnv -> Exn + (A * AirHockeyEnv).

Definition ret {A} (a : A) : Env A := fun env => inr (a, env).

Definition bind {A B} (m : Env A) (k : A -> Env B) : Env B :=
  fun env =>
    match m env with
    | inl e => inl e
    | inr (a, env') => k a env'
    end.

Definition get : Env AirHockeyEnv := fun env => inr (env, env).

Definition modify (f : AirHockeyEnv -> AirHockeyEnv) : Env unit :=
  fun env => inr (tt, f env).

Definition lift {A} (r : Exn + A) : Env A :=
  fun env =>
    match r with
    | inl e => inl e
    | inr a => inr (a, env)
    end.

Declare Scope env_scope.
Delimit Scope env_scope with env.
Notation "v <- m ;; k" := (bind m (fun v => k))
  (at level 61, m at next level, right associativity) : env_scope.
Notation "m ;; k" := (bind m (fun _ => k))
  (at level 61, right associativity) : env_scope.

(** [returns m env P]: run from [env], [m] raises nothing and its value and
    final state satisfy [P]. *)
Definition returns {A} (m : Env A) (env : AirHockeyEnv)
  (P : A -> AirHockeyEnv -> Prop) : Prop :=
  match m env with
  | inl _ => False
  | inr (a, env') => P a env'
  end.

(** [for _ in range(n): body] *)
Fixpoint for_range (n : nat) (body : Env unit) : Env unit :=
  match n with
  | O => ret tt
  | S n' => bind body (fun _ => for_range n' body)
  end.

(* ===================================================================== *)
(** ** numpy helpers *)

(** [np.clip(v, lo, hi)] on a scalar: [minimum(maximum(v, lo), hi)]. *)
Definition np_clip (v lo hi : Q) : Q := Qmin (Qmax v lo) hi.

(** [np.clip(a, lo, hi)] on an array. *)
Definition np_clip_array (a : ndarray) (lo hi : Q) : ndarray :=
  map (fun v => np_clip v lo hi) a.

(** [np.sign(v)] *)
Definition np_sign (v : Q) : Q :=
  match v ?= 0 with
  | Lt => -1
  | Eq => 0
  | Gt => 1
  end.

(** [a[i]] *)
Definition getitem (a : ndarray) (i : nat) : Exn + Q :=
  match nth_error a i with
  | Some v => inr v
  | None => inl IndexError
  end.

(* ===================================================================== *)
(** ** Field updates *)

Definition set_position (p : Vec2d) (b : Body) : Body :=
  {| position := p; velocity := velocity b; force := force b |}.

Definition set_ai_paddle (b : Body) (sp : Space) : Space :=
  {| ball := ball sp; ai_paddle := b;
     agent_paddle := agent_paddle sp; mouse_body := mouse_body sp |}.

Definition set_agent_paddle (b : Body) (sp : Space) : Space :=
  {| ball := ball sp; ai_paddle := ai_paddle sp;
     agent_paddle := b; mouse_body := mouse_body sp |}.

Definition set_mouse_body (b : Body) (sp : Space) : Space :=
  {| ball := ball sp; ai_paddle := ai_paddle sp;
     agent_paddle := agent_paddle sp; mouse_body := b |}.

Definition set_space (sp : Space) (env : AirHockeyEnv) : AirHockeyEnv :=
  {| with_bot := with_bot env; space := sp; steps := steps env |}.

Definition set_steps (n : Z) (env : AirHockeyEnv) : AirHockeyEnv :=
  {| with_bot := with_bot env; space := space env; steps := n |}.

(* ===================================================================== *)
(** ** The physics engine, as the environment uses it *)

Class Pymunk : Type := {
  (** [space.step(dt)] *)
  space_step : Q -> Space -> Space;
  (** [body.apply_force_at_local_point(force)], at the centre of the body *)
  apply_force_at_local_point : Vec2d -> Body -> Body
}.

(* ===================================================================== *)
(** ** Methods of [AirHockeyEnv] that do not call the engine *)

(** [_move_bot]: the scripted opponent follows the ball's x coordinate. *)
Definition _move_bot (env : AirHockeyEnv) : AirHockeyEnv :=
  let sp := space env in
  let ball_x := x (position (ball sp)) in
  let current_x := x (position (mouse_body sp)) in
  let speed_limit := 8.0 in
  let diff := ball_x - current_x in
  let new_x :=
    if Qlt_le_dec (Qabs diff) speed_limit then ball_x
    else current_x + speed_limit * np_sign diff in
  let new_x := np_clip new_x paddle_radius (width - paddle_radius) in
  set_space
    (set_mouse_body
       (set_position {| x := new_x; y := height - 100 |} (mouse_body sp)) sp)
    env.

(** [_constrain_paddle_movement]: keep each paddle on the table and on its
    own side of the centre line. *)
Definition _constrain_paddle_movement (env : AirHockeyEnv) : AirHockeyEnv :=
  let sp := space env in
  let p := position (agent_paddle sp) in
  let new_x := np_clip (x p) paddle_radius (width - paddle_radius) in
  let new_y :=
    np_clip (y p) (height / 2 + paddle_radius) (height - paddle_radius) in
  let sp :=
    set_agent_paddle
      (set_position {| x := new_x; y := new_y |} (agent_paddle sp)) sp in
  let p_ai := position (ai_paddle sp) in
  let new_ai_x := np_clip (x p_ai) paddle_radius (width - paddle_radius) in
  let new_ai_y :=
    np_clip (y p_ai) paddle_radius (height / 2 - paddle_radius) in
  let sp :=
    set_ai_paddle
      (set_position {| x := new_ai_x; y := new_ai_y |} (ai_paddle sp)) sp in
  set_space sp env.

(** [_get_obs]: the normalised observation. *)
Definition _get_obs (env : AirHockeyEnv) : ndarray :=
  let w := width in
  let h := height in
  let sp := space env in
  let bx := x (position (ball sp)) in
  let by_ := y (position (ball sp)) in
  let bvx := x (velocity (ball sp)) in
  let bvy := y (velocity (ball sp)) in
  let ax := x (position (ai_paddle sp)) in
  let ay := y (position (ai_paddle sp)) in
  let ox := x (position (agent_paddle sp)) in
  let oy := y (position (agent_paddle sp)) in
  [bx / w; by_ / h; bvx / 1000; bvy / 1000; ax / w; ay / h; ox / w; oy / h].

(** [manual_move_agent]: play mode, the mouse sets the control point. *)
Definition manual_move_agent (mouse_x mouse_y : Q) (env : AirHockeyEnv)
  : AirHockeyEnv :=
  let sp := space env in
  set_space
    (set_mouse_body
       (set_position {| x := mouse_x; y := mouse_y |} (mouse_body sp)) sp)
    env.

(** A body as [pymunk.Body(mass, inertia)] makes it, placed at [(px, py)]. *)
Definition new_body (px py : Q) : Body :=
  {| position := {| x := px; y := py |};
     velocity := {| x := 0; y := 0 |};
     force := {| x := 0; y := 0 |} |}.

(** [_create_ball]; [launch] is the pair of [random.uniform(-200, 200)]
    draws, read only when [random_launch] holds. *)
Definition _create_ball (px py : Q) (random_launch : bool) (launch : Vec2d)
  : Body :=
  let body := new_body px py in
  if random_launch
  then {| position := position body; velocity := launch; force := force body |}
  else body.

Definition _create_paddle (px py : Q) : Body := new_body px py.

(** [reset]: a new episode.  Returns the first observation. *)
Definition reset (launch : Vec2d) : Env ndarray :=
  (env <- get ;;
   let is_training := with_bot env in
   let ball := _create_ball (width / 2) (height / 2) is_training launch in
   let ai_paddle := _create_paddle (width / 2) 100 in
   let agent_paddle := _create_paddle (width / 2) (height - 100) in
   let mouse_body := set_position (position agent_paddle) (new_body 0 0) in
   modify (fun env =>
     {| with_bot := with_bot env;
        space := {| ball := ball; ai_paddle := ai_paddle;
                    agent_paddle := agent_paddle; mouse_body := mouse_body |};
        steps := 0 |}) ;;
   env <- get ;;
   ret (_get_obs env))%env.

(* ===================================================================== *)
(** ** Methods that call the engine *)

Section Engine.

Context {engine : Pymunk}.

(** [_apply_action]: clamp the action and push the paddle. *)
Definition _apply_action (paddle : Body) (action : ndarray) : Exn + Body :=
  let force_mult := 50000 in
  let action := np_clip_array action (-1) 1 in
  match getitem action 0 with
  | inl e => inl e
  | inr a0 =>
    match getitem action 1 with
    | inl e => inl e
    | inr a1 =>
      inr (apply_force_at_local_point
             {| x := a0 * force_mult; y := a1 * force_mult |} paddle)
    end
  end.

(** [step]: action, bot, ten physics substeps, reward and episode end. *)
Definition step (action : ndarray) : Env StepResult :=
  (env <- get ;;
   paddle <- lift (_apply_action (ai_paddle (space env)) action) ;;
   modify (fun env => set_space (set_ai_paddle paddle (space env)) env) ;;
   env <- get ;;
   (if with_bot env then modify _move_bot else ret tt) ;;
   let dt := 1.0 / 60.0 in
   for_range 10
     (modify (fun env => set_space (space_step (dt / 10) (space env)) env) ;;
      modify _constrain_paddle_movement) ;;
   modify (fun env => set_steps (steps env + 1) env) ;;
   env <- get ;;
   let ball_y := y (position (ball (space env))) in
   let '(reward, terminated) :=
     if Qlt_le_dec ball_y 0 then (10, true)
     else if Qlt_le_dec height ball_y then (-10, true)
     else (0, false) in
   let reward :=
     if Qlt_le_dec ball_y (height / 2) then reward + 0.001 else reward in
   let truncated := (2000 <? steps env)%Z in
   ret {| obs := _get_obs env; reward := reward;
          terminated := terminated; truncated := truncated |})%env.

(** Successive calls of [step], one per action, collecting what they
    return. *)
Fixpoint run (actions : list ndarray) : Env (list StepResult) :=
  match actions with
  | [] => ret []
  | action :: rest =>
    (r <- step action ;;
     rs <- run rest ;;
     ret (r :: rs))%env
  end.

(** *** [step] in pieces, for the proofs *)

(** One pass of the loop body: a tenth of a frame of physics, then the
    paddle constraints. *)
Definition substep (env : AirHockeyEnv) : AirHockeyEnv :=
  _constrain_paddle_movement
    (set_space (space_step (1.0 / 60.0 / 10) (space env)) env).

(** The force that [_apply_action] hands to the engine. *)
Definition applied_force (a0 a1 : Q) : Vec2d :=
  {| x := np_clip a0 (-1) 1 * 50000; y := np_clip a1 (-1) 1 * 50000 |}.

(** The environment after the action and the bot, before the physics. *)
Definition after_controls (a0 a1 : Q) (env : AirHockeyEnv) : AirHockeyEnv :=
  let paddle :=
    apply_force_at_local_point (applied_force a0 a1)
      (ai_paddle (space env)) in
  let env1 := set_space (set_ai_paddle paddle (space env)) env in
  if with_bot env1 then _move_bot env1 else env1.

(** The environment when [step] returns. *)
Definition after_step (a0 a1 : Q) (env : AirHockeyEnv) : AirHockeyEnv :=
  let env3 := Nat.iter 10 substep (after_controls a0 a1 env) in
  set_steps (steps env3 + 1) env3.

(** What [step] returns, read off the environment it leaves. *)
Definition judged (r : StepResult) (env' : AirHockeyEnv) : Prop :=
  let ball_y := y (position (ball (space env'))) in
  obs r = _get_obs env' /\
  truncated r = (2000 <? steps env')%Z /\
  (ball_y < 0 -> terminated r = true /\ reward r == 10 + 0.001) /\
  (height < ball_y -> terminated r = true /\ reward r == -10) /\
  (0 <= ball_y <= height ->
   terminated r = false /\
   (ball_y < height / 2 -> reward r == 0.001) /\
   (height / 2 <= ball_y -> reward r == 0)).

End Engine.

(* ===================================================================== *)
(** ** An engine for concrete runs *)

(** Bodies in free flight: no collisions, no joint, no damping.  A force is
    added to the body's accumulator; a step moves every body along its
    velocity and clears the accumulators.  Coordinates are kept in lowest
    terms. *)
Definition drift (dt : Q) (b : Body) : Body :=
  {| position :=
       {| x := Qred (x (position b) + x (velocity b) * dt);
          y := Qred (y (position b) + y (velocity b) * dt) |};
     velocity := velocity b;
     force := {| x := 0; y := 0 |} |}.

Definition Ballistic : Pymunk :=
  {| space_step := fun dt sp =>
       {| ball := drift dt (ball sp);
          ai_paddle := drift dt (ai_paddle sp);
          agent_paddle := drift dt (agent_paddle sp);
          mouse_body := drift dt (mouse_body sp) |};
     apply_force_at_local_point := fun f b =>
       {| position := position b;
          velocity := velocity b;
          force := {| x := x (force b) + x f; y := y (force b) + y f |} |} |}.

(* ===================================================================== *)
(** ** Concrete environments *)

(** An environment as [__init__] leaves it, with [with_bot] as the driver
    sets it; the bodies and the counter get their values at [reset]. *)
Definition fresh_env (bot : bool) : AirHockeyEnv :=
  {| with_bot := bot;
     space := {| ball := new_body 0 0; ai_paddle := new_body 0 0;
                 agent_paddle := new_body 0 0; mouse_body := new_body 0 0 |};
     steps := 0 |}.

(** A training episode in progress: paddles and control point where [reset]
    puts them, at (250, 100) and (250, 600), the ball at [p] with velocity
    [v], [n] calls of [step] so far. *)
Definition mid_episode (p v : Vec2d) (n : Z) : AirHockeyEnv :=
  {| with_bot := true;
     space :=
       {| ball := {| position := p; velocity := v;
                     force := {| x := 0; y := 0 |} |};
          ai_paddle := _create_paddle 250 100;
          agent_paddle := _create_paddle 250 600;
          mouse_body := _create_paddle 250 600 |};
     steps := n |}.

(** The ball in front of the top goal mouth, about to cross the line. *)
Definition env_top_goal : AirHockeyEnv :=
  mid_episode {| x := 250; y := 2 |} {| x := 0; y := -300 |} 57.

(** The ball in front of the bottom goal mouth, about to cross the line. *)
Definition env_bottom_goal : AirHockeyEnv :=
  mid_episode {| x := 250; y := 698 |} {| x := 0; y := 300 |} 57.

(** The ball crossing the upper half, no goal in reach. *)
Definition env_upper_half : AirHockeyEnv :=
  mid_episode {| x := 200; y := 200 |} {| x := 120; y := 60 |} 57.

(** The ball crossing the lower half, no goal in reach. *)
Definition env_lower_half : AirHockeyEnv :=
  mid_episode {| x := 200; y := 500 |} {| x := 120; y := 60 |} 57.

Definition zero_action : ndarray := [0; 0].

(** Play mode from [reset]: everything at rest. *)
Definition at_rest : AirHockeyEnv :=
  {| with_bot := false;
     space :=
       {| ball := _create_ball (width / 2) (height / 2) false
                    {| x := 0; y := 0 |};
          ai_paddle := _create_paddle (width / 2) 100;
          agent_paddle := _create_paddle (width / 2) (height - 100);
          mouse_body := _create_paddle (width / 2) (height - 100) |};
     steps := 0 |}.

(* ===================================================================== *)
(** ** Predicates of the specification *)

(** The agent (lower) paddle's centre is on the table and in the lower
    half. *)
Definition agent_in_half (env : AirHockeyEnv) : Prop :=
  let p := position (agent_paddle (space env)) in
  paddle_radius <= x p <= width - paddle_radius /\
  height / 2 + paddle_radius <= y p <= height - paddle_radius.

(** The AI (upper) paddle's centre is on the table and in the upper half. *)
Definition ai_in_half (env : AirHockeyEnv) : Prop :=
  let p := position (ai_paddle (space env)) in
  paddle_radius <= x p <= width - paddle_radius /\
  paddle_radius <= y p <= height / 2 - paddle_radius.

(** Squared distance between two points. *)
Definition dist2 (u v : Vec2d) : Q :=
  (x u - x v) * (x u - x v) + (y u - y v) * (y u - y v).

(** A point of the closed table rectangle. *)
Definition on_table (p : Vec2d) : Prop :=
  0 <= x p <= width /\ 0 <= y p <= height.

(** Ball and both paddle centres on the table, ball velocity at most 1000
    in each component. *)
Definition in_bounds (env : AirHockeyEnv) : Prop :=
  let sp := space env in
  on_table (position (ball sp)) /\
  on_table (position (ai_paddle sp)) /\
  on_table (position (agent_paddle sp)) /\
  Qabs (x (velocity (ball sp))) <= 1000 /\
  Qabs (y (velocity (ball sp))) <= 1000.

(** An action with the two components that [_apply_action] reads. *)
Definition well_shaped (action : ndarray) : Prop := (2 <= length action)%nat.

(** The point the bot aims at before the clamp: the ball's x when it is
    closer than the speed limit, else one speed limit toward the ball. *)
Definition bot_target (env : AirHockeyEnv) : Q :=
  let ball_x := x (position (ball (space env))) in
  let current_x := x (position (mouse_body (space env))) in
  if Qlt_le_dec (Qabs (ball_x - current_x)) 8.0 then ball_x
  else current_x + 8.0 * np_sign (ball_x - current_x).

(** The ball's y coordinate, [self.ball.body.position.y]. *)
Definition ball_y (env : AirHockeyEnv) : Q := y (position (ball (space env))).

(* ===================================================================== *)
(** ** The walls *)

(** [static_lines] of [_create_walls]: the end points of the six wall
    segments. *)
Definition static_lines : list (Vec2d * Vec2d) :=
  [ ({| x := 0; y := 0 |}, {| x := 0; y := height |});
    ({| x := width; y := 0 |}, {| x := width; y := height |});
    ({| x := 0; y := 0 |}, {| x := width / 2 - goal_width / 2; y := 0 |});
    ({| x := width / 2 + goal_width / 2; y := 0 |}, {| x := width; y := 0 |});
    ({| x := 0; y := height |},
     {| x := width / 2 - goal_width / 2; y := height |});
    ({| x := width / 2 + goal_width / 2; y := height |},
     {| x := width; y := height |}) ].

(** [_create_walls]: for each pair of end points a
    [pymunk.Segment(static_body, p1, p2, 5)], here the end points with the
    radius 5. *)
Definition _create_walls : list ((Vec2d * Vec2d) * Q) :=
  map (fun ends => (ends, 5)) static_lines.

(** The point [p] lies on the segment from [fst s] to [snd s]: collinear
    with the end points and inside their bounding box. *)
Definition on_segment (p : Vec2d) (s : Vec2d * Vec2d) : Prop :=
  let a := fst s in
  let b := snd s in
  (x b - x a) * (y p - y a) == (y b - y a) * (x p - x a) /\
  Qmin (x a) (x b) <= x p <= Qmax (x a) (x b) /\
  Qmin (y a) (y b) <= y p <= Qmax (y a) (y b).

(** The centre line of some wall passes through [p]. *)
Definition on_wall (p : Vec2d) : Prop :=
  Exists (on_segment p) (map fst _create_walls).

(** The point [p] is inside the segment shape [shape]: at most its radius
    away from a point of its centre line. *)
Definition in_segment_shape (p : Vec2d) (shape : (Vec2d * Vec2d) * Q)
  : Prop :=
  exists q : Vec2d,
    on_segment q (fst shape) /\ dist2 p q <= snd shape * snd shape.

(** The point [p] is inside some wall. *)
Definition in_wall (p : Vec2d) : Prop :=
  Exists (in_segment_shape p) _create_walls.

(* ===================================================================== *)
(** ** The play-mode driver, [play_game] *)

(** [fake_obs]: the observation handed to the policy in play mode, with
    the y axis reversed. *)
Definition fake_obs (env : AirHockeyEnv) : ndarray :=
  let w := width in
  let h := height in
  let sp := space env in
  let bx := x (position (ball sp)) in
  let by_ := y (position (ball sp)) in
  let bvx := x (velocity (ball sp)) in
  let bvy := y (velocity (ball sp)) in
  let ai_pos := position (ai_paddle sp) in
  let player_pos := position (agent_paddle sp) in
  [bx / w; 1 - by_ / h;
   bvx / 1000; - bvy / 1000;
   x ai_pos / w; 1 - y ai_pos / h;
   x player_pos / w; 1 - y player_pos / h].

(** The banner shown when a frame terminates the game: text and colour. *)
Definition game_over_banner (env : AirHockeyEnv) : string * (Z * Z * Z) :=
  let ball_y := y (position (ball (space env))) in
  if Qlt_le_dec ball_y 0 then ("YOU WIN!"%string, (0, 200, 0)%Z)
  else if Qlt_le_dec height ball_y then ("AI WINS!"%string, (200, 0, 0)%Z)
  else (EmptyString, (0, 0, 0)%Z).

Section Play.

Context {engine : Pymunk}.

(** One pass of the loop of [play_game] with the window open: the policy
    [predict] acts on the mirrored observation, the mouse at
    [(mouse_x, mouse_y)] sets the control point, the environment steps with
    the action [0, 0], and a finished game is reset ([launch] and [launch']
    are the random draws of the two calls of [reset]).  Returns what [step]
    returned and the banner, if one was shown. *)
Definition play_frame (predict : ndarray -> ndarray) (mouse_x mouse_y : Q)
  (launch launch' : Vec2d)
  : Env (StepResult * option (string * (Z * Z * Z))) :=
  (env <- get ;;
   let action := predict (fake_obs env) in
   paddle <- lift (_apply_action (ai_paddle (space env)) action) ;;
   modify (fun env => set_space (set_ai_paddle paddle (space env)) env) ;;
   modify (manual_move_agent mouse_x mouse_y) ;;
   r <- step [0; 0] ;;
   env <- get ;;
   banner <-
     (if terminated r
      then (_ <- reset launch ;; ret (Some (game_over_banner env)))
      else ret None) ;;
   (if truncated r then (_ <- reset launch' ;; ret tt) else ret tt) ;;
   ret (r, banner))%env.

End Play.

(** The environment seen in a mirror along the centre line: y becomes
    height - y and the y velocity changes sign. *)
Definition reflect_body (b : Body) : Body :=
  {| position := {| x := x (position b); y := height - y (position b) |};
     velocity := {| x := x (velocity b); y := - y (velocity b) |};
     force := force b |}.

Definition reflect (env : AirHockeyEnv) : AirHockeyEnv :=
  {| with_bot := with_bot env;
     space := {| ball := reflect_body (ball (space env));
                 ai_paddle := reflect_body (ai_paddle (space env));
                 agent_paddle := reflect_body (agent_paddle (space env));
                 mouse_body := reflect_body (mouse_body (space env)) |};
     steps := steps env |}.

(** Two arrays with equal entries, as rationals. *)
Definition array_eq (a b : ndarray) : Prop := Forall2 Qeq a b.

(** Two points with equal coordinates, as rationals. *)
Definition same_point (u v : Vec2d) : Prop := x u == x v /\ y u == y v.

(** The start of an episode: counter at 0, ball at the table centre, paddles
    and control point at their start positions, paddles at rest. *)
Definition at_start (env : AirHockeyEnv) : Prop :=
  let sp := space env in
  steps env = 0%Z /\
  same_point (position (ball sp)) {| x := 250; y := 350 |} /\
  same_point (position (ai_paddle sp)) {| x := 250; y := 100 |} /\
  same_point (position (agent_paddle sp)) {| x := 250; y := 600 |} /\
  position (mouse_body sp) = position (agent_paddle sp) /\
  velocity (ai_paddle sp) = {| x := 0; y := 0 |} /\
  velocity (agent_paddle sp) = {| x := 0; y := 0 |}.

(* ===================================================================== *)
(** ** Clamping *)

Lemma np_clip_bounds (v lo hi : Q) :
  lo <= hi -> lo <= np_clip v lo hi <= hi.
Proof.
  intros Hlh. unfold np_clip.
  destruct (Q.max_spec v lo) as [[Hm Em] | [Hm Em]];
    destruct (Q.min_spec (Qmax v lo) hi) as [[Hn En] | [Hn En]];
    rewrite En; rewrite ?Em in *; split; lra.
Qed.

Lemma np_clip_inside (v lo hi : Q) :
  lo <= v <= hi -> np_clip v lo hi == v.
Proof.
  intros [Hl Hh]. unfold np_clip.
  destruct (Q.max_spec v lo) as [[Hm Em] | [Hm Em]];
    destruct (Q.min_spec (Qmax v lo) hi) as [[Hn En] | [Hn En]];
    rewrite En; rewrite ?Em in *; lra.
Qed.

(** The clamp of [v] lies between [v] and any point [c] of the interval. *)
Lemma np_clip_between (v c lo hi : Q) :
  lo <= c <= hi ->
  (c <= v -> c <= np_clip v lo hi <= v) /\
  (v <= c -> v <= np_clip v lo hi <= c).
Proof.
  intros [Hl Hh]. unfold np_clip.
  destruct (Q.max_spec v lo) as [[Hm Em] | [Hm Em]];
    destruct (Q.min_spec (Qmax v lo) hi) as [[Hn En] | [Hn En]];
    rewrite En; rewrite ?Em in *; split; intros; lra.
Qed.

Lemma Qsquare_nonneg (a : Q) : 0 <= a * a.
Proof.
  destruct (Qlt_le_dec a 0) as [Hneg | Hpos].
  - setoid_replace (a * a) with ((- a) * (- a)) by ring.
    apply Qmult_le_0_compat; lra.
  - apply Qmult_le_0_compat; assumption.
Qed.

(** Linear arithmetic over [Q] does not read a division: a quotient by a
    constant is turned into a product with the constant's inverse, in lowest
    form. *)
Ltac inv_constants :=
  unfold Qdiv in *;
  repeat match goal with
  | |- context [Qinv ?c] =>
    let c' := eval vm_compute in (Qinv c) in
    progress change (Qinv c) with c'
  | H : context [Qinv ?c] |- _ =>
    let c' := eval vm_compute in (Qinv c) in
    progress change (Qinv c) with c' in H
  end.

(** Case analysis on every absolute value, then linear arithmetic. *)
Ltac qabs_lra :=
  repeat match goal with
  | H : context [Qabs _] |- _ => revert H
  end;
  repeat (apply Qabs_case; intros);
  lra.

Ltac table_constants :=
  cbv delta [width height paddle_radius] in *; inv_constants.

(** Records the bounds of every clamped value that occurs in the goal. *)
Ltac clip_bounds :=
  repeat match goal with
  | |- context [np_clip ?v ?lo ?hi] =>
    lazymatch goal with
    | _ : lo <= np_clip v lo hi <= hi |- _ => fail
    | _ =>
      let H := fresh "Hclip" in
      assert (H : lo <= np_clip v lo hi <= hi)
        by (apply np_clip_bounds; table_constants; lra)
    end
  end.

(* ===================================================================== *)
(** ** Paddle constraint enforcement *)

Lemma constrain_in_half (env : AirHockeyEnv) :
  agent_in_half (_constrain_paddle_movement env) /\
  ai_in_half (_constrain_paddle_movement env).
Proof.
  unfold agent_in_half, ai_in_half. cbn.
  clip_bounds. table_constants. repeat split; lra.
Qed.


(** C9.  After [_constrain_paddle_movement] the paddles cannot overlap: the
    agent paddle's centre has y at least height/2 + 25 = 375, the AI
    paddle's centre has y at most height/2 - 25 = 325, so the centres are at
    least 50 apart (squared distance at least 50 * 50), the sum of the two
    radii. *)
Theorem constrain_paddles_apart (env : AirHockeyEnv) :
  let env' := _constrain_paddle_movement env in
  let p := position (agent_paddle (space env')) in
  let p_ai := position (ai_paddle (space env')) in
  height / 2 + 25 <= y p /\
  y p_ai <= height / 2 - 25 /\
  50 <= y p - y p_ai /\
  paddle_radius + paddle_radius == 50 /\
  50 * 50 <= dist2 p p_ai.
Proof.
  cbv zeta. unfold dist2. cbn.
  clip_bounds. table_constants.
  set (ya := np_clip (y (position (agent_paddle (space env)))) _ _) in *.
  set (yb := np_clip (y (position (ai_paddle (space env)))) _ _) in *.
  set (xa := np_clip (x (position (agent_paddle (space env)))) _ _) in *.
  set (xb := np_clip (x (position (ai_paddle (space env)))) _ _) in *.
  clearbody xa xb ya yb.
  assert (Hd : 50 <= ya - yb) by lra.
  repeat split; try lra.
  assert (Hy2 : 0 <= (ya - yb - 50) * (ya - yb + 50))
    by (apply Qmult_le_0_compat; lra).
  pose proof (Qsquare_nonneg (xa - xb)) as Hx2.
  lra.
Qed.

(** C10.  [_constrain_paddle_movement] writes the two paddles' positions
    and nothing else: the ball (position and velocity), both paddles'
    velocities and the step counter are as before, and so are the control
    point and the bot flag. *)
Theorem constrain_frame (env : AirHockeyEnv) :
  let env' := _constrain_paddle_movement env in
  position (ball (space env')) = position (ball (space env)) /\
  velocity (ball (space env')) = velocity (ball (space env)) /\
  velocity (agent_paddle (space env')) = velocity (agent_paddle (space env)) /\
  velocity (ai_paddle (space env')) = velocity (ai_paddle (space env)) /\
  steps env' = steps env /\
  ball (space env') = ball (space env) /\
  mouse_body (space env') = mouse_body (space env) /\
  force (agent_paddle (space env')) = force (agent_paddle (space env)) /\
  force (ai_paddle (space env')) = force (ai_paddle (space env)) /\
  with_bot env' = with_bot env.
Proof.
  cbv zeta. cbn. repeat split; reflexivity.
Qed.

(* ===================================================================== *)
(** ** The bot *)

Lemma np_sign_cases (v : Q) :
  (v < 0 /\ np_sign v = -1) \/ (v == 0 /\ np_sign v = 0) \/
  (0 < v /\ np_sign v = 1).
Proof.
  unfold np_sign. destruct (Qcompare_spec v 0) as [He | Hl | Hg]; auto.
Qed.

Lemma bot_target_spec (env : AirHockeyEnv) :
  let ball_x := x (position (ball (space env))) in
  let current_x := x (position (mouse_body (space env))) in
  let t := bot_target env in
  Qabs (t - current_x) <= 8 /\
  (Qabs (ball_x - current_x) < 8 -> t == ball_x) /\
  (8 <= ball_x - current_x -> t == current_x + 8) /\
  (ball_x - current_x <= -8 -> t == current_x - 8).
Proof.
  cbv zeta. unfold bot_target.
  set (ball_x := x (position (ball (space env)))).
  set (current_x := x (position (mouse_body (space env)))).
  destruct (Qlt_le_dec (Qabs (ball_x - current_x)) 8.0) as [Hnear | Hfar].
  - repeat split.
    + lra.
    + intros H. revert Hnear. apply Qabs_case; intros; lra.
    + intros H. revert Hnear. apply Qabs_case; intros; lra.
  - destruct (np_sign_cases (ball_x - current_x))
      as [[Hs Es] | [[Hs Es] | [Hs Es]]]; rewrite Es;
      revert Hfar; apply Qabs_case; intros; repeat split; intros;
      try (apply Qabs_case; intros); try lra.
Qed.

(** [_move_bot] puts the control point at y = height - 100 = 600 and
    at an x in [25, 475] that is the clamp of a target [t]: [t] is at most
    8 away from the current x, equals the ball's x when the ball is
    horizontally closer than 8, and is otherwise exactly 8 nearer to the
    ball.  From a current x in [25, 475] the control point itself moves by
    at most 8 and never away from the ball.  Nothing else changes. *)
Theorem move_bot_tracks_ball (env : AirHockeyEnv) :
  let ball_x := x (position (ball (space env))) in
  let current_x := x (position (mouse_body (space env))) in
  let env' := _move_bot env in
  let p' := position (mouse_body (space env')) in
  (y p' = height - 100 /\ y p' == 600) /\
  (paddle_radius <= x p' <= width - paddle_radius /\ 25 <= x p' <= 475) /\
  (exists t : Q,
     x p' = np_clip t paddle_radius (width - paddle_radius) /\
     Qabs (t - current_x) <= 8 /\
     (Qabs (ball_x - current_x) < 8 -> t == ball_x) /\
     (8 <= Qabs (ball_x - current_x) ->
      Qabs (ball_x - t) == Qabs (ball_x - current_x) - 8)) /\
  (Qabs (ball_x - current_x) < 8 -> 25 <= ball_x <= 475 -> x p' == ball_x) /\
  (25 <= current_x <= 475 ->
   Qabs (x p' - current_x) <= 8 /\
   Qabs (ball_x - x p') <= Qabs (ball_x - current_x)) /\
  (ball (space env') = ball (space env) /\
   ai_paddle (space env') = ai_paddle (space env) /\
   agent_paddle (space env') = agent_paddle (space env) /\
   velocity (mouse_body (space env')) = velocity (mouse_body (space env)) /\
   steps env' = steps env /\ with_bot env' = with_bot env).
Proof.
  cbv zeta.
  pose proof (bot_target_spec env) as Ht. cbv zeta in Ht.
  change (x (position (mouse_body (space (_move_bot env)))))
    with (np_clip (bot_target env) paddle_radius (width - paddle_radius)).
  change (y (position (mouse_body (space (_move_bot env)))))
    with (height - 100).
  set (ball_x := x (position (ball (space env)))) in *.
  set (current_x := x (position (mouse_body (space env)))) in *.
  set (t := bot_target env) in *. clearbody t.
  destruct Ht as (Hcap & Hsnap & Hright & Hleft).
  assert (Hbounds : paddle_radius <= np_clip t paddle_radius
                      (width - paddle_radius) <= width - paddle_radius)
    by (apply np_clip_bounds; table_constants; lra).
  assert (Hexact : 8 <= Qabs (ball_x - current_x) ->
                   Qabs (ball_x - t) == Qabs (ball_x - current_x) - 8).
  { intros Hfar. revert Hfar. apply Qabs_case; intros Hs Hfar.
    - rewrite (Hright Hfar). apply Qabs_case; intros; lra.
    - assert (Hl : ball_x - current_x <= -8) by lra.
      rewrite (Hleft Hl). apply Qabs_case; intros; lra. }
  split; [| split; [| split; [| split; [| split]]]].
  - split; [reflexivity | table_constants; lra].
  - split; [exact Hbounds | table_constants; lra].
  - exists t. repeat split; assumption.
  - intros Hnear Hin. pose proof (Hsnap Hnear) as Et.
    rewrite np_clip_inside; [exact Et | table_constants; lra].
  - intros Hin.
    assert (Hin' : paddle_radius <= current_x <= width - paddle_radius)
      by (table_constants; lra).
    destruct (np_clip_between t current_x _ _ Hin') as [Hup Hdown].
    set (c := np_clip t paddle_radius (width - paddle_radius)) in *.
    clearbody c.
    pose proof (proj1 (Qabs_Qle_condition _ _) Hcap) as Hcap'.
    clear Hexact Hcap.
    destruct (Qlt_le_dec (Qabs (ball_x - current_x)) 8) as [Hnear | Hfar].
    + pose proof (Hsnap Hnear) as Et. clear Hsnap Hnear.
      destruct (Qlt_le_dec t current_x) as [Hlt | Hge].
      * assert (Hc : t <= c <= current_x) by (apply Hdown; lra).
        split; qabs_lra.
      * assert (Hc : current_x <= c <= t) by (apply Hup; lra).
        split; qabs_lra.
    + clear Hsnap. revert Hfar. apply Qabs_case; intros Hs Hfar.
      * pose proof (Hright Hfar) as Et.
        assert (Hc : current_x <= c <= t) by (apply Hup; lra).
        split; qabs_lra.
      * assert (Hl : ball_x - current_x <= -8) by lra.
        pose proof (Hleft Hl) as Et.
        assert (Hc : t <= c <= current_x) by (apply Hdown; lra).
        split; qabs_lra.
  - cbn. repeat split; reflexivity.
Qed.

(* ===================================================================== *)
(** ** One call of [step], taken apart *)

Lemma for_range_pure (n : nat) (body : Env unit)
  (f : AirHockeyEnv -> AirHockeyEnv) :
  (forall env, body env = inr (tt, f env)) ->
  forall env, for_range n body env = inr (tt, Nat.iter n f env).
Proof.
  intros Hbody. induction n as [| n IH]; intros env.
  - reflexivity.
  - cbn [for_range]. unfold bind. rewrite Hbody, IH.
    rewrite Nat.iter_succ_r. reflexivity.
Qed.

Section StepFacts.

Context {engine : Pymunk}.

(** The reward and episode-end computation at the end of [step], for the
    environment [env'] that the loop and the counter update leave. *)
Lemma judged_reward (env' : AirHockeyEnv) :
  exists r : StepResult,
    (let '(reward, terminated) :=
       if Qlt_le_dec (y (position (ball (space env')))) 0 then (10, true)
       else if Qlt_le_dec height (y (position (ball (space env'))))
            then (-10, true)
            else (0, false) in
     fun env0 : AirHockeyEnv =>
       @inr Exn _
         ({| obs := _get_obs env';
             reward :=
               if Qlt_le_dec (y (position (ball (space env')))) (height / 2)
               then reward + 0.001 else reward;
             terminated := terminated;
             truncated := (2000 <? steps env')%Z |}, env0)) env'
    = inr (r, env') /\
    judged r env'.
Proof.
  unfold judged.
  destruct (Qlt_le_dec (y (position (ball (space env')))) 0) as [Htop | Htop];
    [| destruct (Qlt_le_dec height (y (position (ball (space env')))))
         as [Hbot | Hbot]];
    destruct (Qlt_le_dec (y (position (ball (space env')))) (height / 2))
      as [Hhalf | Hhalf];
    (eexists; split; [reflexivity |]); cbn [obs reward terminated truncated];
    table_constants;
    repeat split; intros; try reflexivity; try lra.
Qed.

Lemma step_two_components (a0 a1 : Q) (rest : ndarray) (env : AirHockeyEnv) :
  exists r : StepResult,
    step (a0 :: a1 :: rest) env = inr (r, after_step a0 a1 env) /\
    judged r (after_step a0 a1 env).
Proof.
  unfold step, after_step.
  cbv [bind get lift modify ret _apply_action getitem np_clip_array
       map nth_error].
  fold (applied_force a0 a1).
  set (env1 := set_space _ env).
  change (after_controls a0 a1 env)
    with (if with_bot env1 then _move_bot env1 else env1).
  destruct (with_bot env1); cbv beta iota;
    rewrite (for_range_pure 10 _ substep) by (intros; reflexivity);
    match goal with
    | |- context [Nat.iter 10 substep ?e] =>
      generalize (Nat.iter 10 substep e); intros env3
    end;
    generalize (set_steps (steps env3 + 1) env3); intros env';
    apply judged_reward.
Qed.

(** The step counter is touched by the increment alone. *)
Lemma steps_substep (env : AirHockeyEnv) : steps (substep env) = steps env.
Proof. reflexivity. Qed.

Lemma steps_substeps (n : nat) (env : AirHockeyEnv) :
  steps (Nat.iter n substep env) = steps env.
Proof.
  induction n as [| n IH]; [reflexivity |].
  rewrite Nat.iter_succ, steps_substep. exact IH.
Qed.

Lemma steps_after_controls (a0 a1 : Q) (env : AirHockeyEnv) :
  steps (after_controls a0 a1 env) = steps env.
Proof.
  unfold after_controls. cbv zeta.
  match goal with |- context [if ?b then _ else _] => destruct b end;
    reflexivity.
Qed.

Lemma steps_after_step (a0 a1 : Q) (env : AirHockeyEnv) :
  steps (after_step a0 a1 env) = (steps env + 1)%Z.
Proof.
  unfold after_step. cbn [steps set_steps].
  rewrite steps_substeps, steps_after_controls. reflexivity.
Qed.

(** The loop ends on the constraint enforcement, so [step] leaves both
    paddles on their halves. *)
Lemma after_step_paddles_in_half (a0 a1 : Q) (env : AirHockeyEnv) :
  agent_in_half (after_step a0 a1 env) /\ ai_in_half (after_step a0 a1 env).
Proof.
  unfold after_step. cbv zeta. rewrite Nat.iter_succ.
  generalize (Nat.iter 9 substep (after_controls a0 a1 env)). intros env9.
  unfold substep.
  generalize (set_space (space_step (1.0 / 60.0 / 10) (space env9)) env9).
  intros moved.
  change (agent_in_half (_constrain_paddle_movement moved) /\
          ai_in_half (_constrain_paddle_movement moved)).
  apply constrain_in_half.
Qed.

Lemma well_shaped_inv (action : ndarray) :
  well_shaped action ->
  exists a0 a1 rest, action = a0 :: a1 :: rest.
Proof.
  unfold well_shaped.
  destruct action as [| a0 [| a1 rest]]; cbn; intros Hlen; try lia.
  exists a0, a1, rest. reflexivity.
Qed.

(** A well-shaped action never makes [step] raise; the counter goes up by
    one and the result is the one [judged] describes. *)
Lemma step_well_shaped (action : ndarray) (env : AirHockeyEnv) :
  well_shaped action ->
  exists (r : StepResult) (env' : AirHockeyEnv),
    step action env = inr (r, env') /\
    judged r env' /\
    steps env' = (steps env + 1)%Z /\
    agent_in_half env' /\ ai_in_half env'.
Proof.
  intros Hshape.
  destruct (well_shaped_inv action Hshape) as (a0 & a1 & rest & ->).
  destruct (step_two_components a0 a1 rest env) as (r & Hrun & Hjudged).
  exists r, (after_step a0 a1 env).
  split; [exact Hrun |]. split; [exact Hjudged |].
  split; [apply steps_after_step | apply after_step_paddles_in_half].
Qed.

(** An action with fewer than two components makes [step] raise. *)
Lemma step_short_action (action : ndarray) (env : AirHockeyEnv) :
  ~ well_shaped action -> step action env = inl IndexError.
Proof.
  unfold well_shaped.
  destruct action as [| a0 [| a1 rest]]; cbn [length]; intros Hlen;
    try reflexivity.
  exfalso. apply Hlen. lia.
Qed.

(** [step] runs the bot exactly when [with_bot] holds. *)
Lemma after_controls_bot (a0 a1 : Q) (env : AirHockeyEnv) :
  let paddle :=
    apply_force_at_local_point (applied_force a0 a1)
      (ai_paddle (space env)) in
  let env1 := set_space (set_ai_paddle paddle (space env)) env in
  after_controls a0 a1 env
  = if with_bot env then _move_bot env1 else env1.
Proof. reflexivity. Qed.

(** Whatever the engine does in its substeps, [step] leaves both paddles on
    their halves. *)
Lemma step_paddles_in_half (action : ndarray) (env : AirHockeyEnv) :
  well_shaped action ->
  returns (step action) env (fun _ env' =>
    agent_in_half env' /\ ai_in_half env').
Proof.
  intros Hshape.
  destruct (step_well_shaped action env Hshape)
    as (r & env' & Hstep & _ & _ & Hhalves).
  unfold returns. rewrite Hstep. exact Hhalves.
Qed.

(** The calls of a run count up from the counter at its start. *)
Lemma run_counts (actions : list ndarray) :
  Forall well_shaped actions ->
  forall env : AirHockeyEnv,
  exists (rs : list StepResult) (env' : AirHockeyEnv),
    run actions env = inr (rs, env') /\
    length rs = length actions /\
    forall (n : nat) (r : StepResult),
      nth_error rs n = Some r ->
      truncated r = (2000 <? steps env + Z.of_nat (S n))%Z.
Proof.
  induction 1 as [| action rest Hshape Hrest IH]; intros env.
  - exists [], env. repeat split; try reflexivity.
    intros n r Hn. destruct n; discriminate.
  - destruct (step_well_shaped action env Hshape)
      as (r & env1 & Hstep & Hjudged & Hsteps & _).
    destruct (IH env1) as (rs & env' & Hrun & Hlen & Htrunc).
    exists (r :: rs), env'.
    split; [| split].
    + cbn [run]. unfold bind. rewrite Hstep, Hrun. reflexivity.
    + cbn [length]. rewrite Hlen. reflexivity.
    + intros n r' Hn. destruct n as [| n].
      * injection Hn as <-.
        destruct Hjudged as (_ & Htr & _). rewrite Htr, Hsteps.
        reflexivity.
      * cbn [nth_error] in Hn. rewrite (Htrunc n r' Hn), Hsteps.
        f_equal. lia.
Qed.

End StepFacts.

(* ===================================================================== *)
(** ** Concrete runs *)

Example reset_play_mode :
  reset {| x := 40; y := -70 |} (fresh_env false)
  = inr (_get_obs at_rest, at_rest).
Proof. reflexivity. Qed.

Example step_into_top_goal :
  step (engine := Ballistic) zero_action env_top_goal
  = inr ({| obs := [250 # 500; -3 # 700; 0 # 1000; -300 # 1000;
                    250 # 500; 100 # 700; 250 # 500; 600 # 700];
            reward := 10.001; terminated := true; truncated := false |},
         mid_episode {| x := 250; y := -3 |} {| x := 0; y := -300 |} 58).
Proof. vm_compute. reflexivity. Qed.

Example step_into_bottom_goal :
  step (engine := Ballistic) zero_action env_bottom_goal
  = inr ({| obs := [250 # 500; 703 # 700; 0 # 1000; 300 # 1000;
                    250 # 500; 100 # 700; 250 # 500; 600 # 700];
            reward := -10; terminated := true; truncated := false |},
         mid_episode {| x := 250; y := 703 |} {| x := 0; y := 300 |} 58).
Proof. vm_compute. reflexivity. Qed.

(** The bot, 50 to the right of the ball, moves 8 to the left. *)
Example move_bot_capped :
  let p' := position (mouse_body (space (_move_bot env_lower_half))) in
  x p' == 242 /\ y p' == 600.
Proof. vm_compute. split; reflexivity. Qed.

(** The bot, 3 to the left of the ball, lands on the ball's x. *)
Example move_bot_snaps :
  let env := mid_episode {| x := 253; y := 500 |} {| x := 0; y := 0 |} 57 in
  let p' := position (mouse_body (space (_move_bot env))) in
  x p' == 253 /\ y p' == 600.
Proof. vm_compute. split; reflexivity. Qed.

(** The ball against the left wall at x = 20: the bot stops at the clamp
    bound 25. *)
Example move_bot_clamped :
  let env := mid_episode {| x := 20; y := 500 |} {| x := 0; y := 0 |} 57 in
  let env := manual_move_agent 30 600 env in
  let p' := position (mouse_body (space (_move_bot env))) in
  x p' == 25 /\ y p' == 600.
Proof. vm_compute. split; reflexivity. Qed.

(** A one-component action makes [step] raise. *)
Example step_one_component :
  step (engine := Ballistic) [1] env_upper_half = inl IndexError.
Proof. reflexivity. Qed.

(* ===================================================================== *)
(** ** Reward and episode end *)

(** C1, as the code has it.  For a two-component action [step] returns,
    and when the ball's y is below 0 after the physics update it returns
    terminated = true with reward 10 + 0.001: the goal reward plus the
    shaping term, which applies because y < 0 is also y < height / 2. *)
Theorem step_top_goal_reward {engine : Pymunk}
  (action : ndarray) (env : AirHockeyEnv) :
  well_shaped action ->
  returns (step action) env (fun r env' =>
    ball_y env' < 0 ->
    terminated r = true /\ reward r == 10 + 0.001).
Proof.
  intros Hshape.
  destruct (step_well_shaped action env Hshape)
    as (r & env' & Hstep & Hjudged & _).
  unfold returns. rewrite Hstep.
  destruct Hjudged as (_ & _ & Htop & _). exact Htop.
Qed.

Lemma step_top_goal_reward_witness :
  well_shaped zero_action /\
  returns (step (engine := Ballistic) zero_action) env_top_goal
    (fun r env' =>
       ball_y env' < 0 /\ terminated r = true /\ reward r == 10 + 0.001).
Proof.
  assert (Hshape : well_shaped zero_action) by (unfold well_shaped; cbn; lia).
  split; [exact Hshape |].
  generalize (step_top_goal_reward (engine := Ballistic)
                zero_action env_top_goal Hshape).
  unfold returns. rewrite step_into_top_goal.
  intros Hgoal.
  assert (Hy : ball_y (mid_episode {| x := 250; y := -3 |}
                         {| x := 0; y := -300 |} 58) < 0)
    by (cbn; lra).
  split; [exact Hy | exact (Hgoal Hy)].
Defined.

(** C1 as stated fails: the ball ends at y = -3 < 0 and the reward is
    10.001, not 10. *)
Lemma top_goal_reward_is_not_10 :
  returns (step (engine := Ballistic) zero_action) env_top_goal
    (fun r env' =>
       ball_y env' < 0 /\ terminated r = true /\ ~ reward r == 10).
Proof.
  unfold returns. rewrite step_into_top_goal.
  split; [cbn; lra |]. split; [reflexivity |].
  cbn. intros Heq. lra.
Qed.

(** C5.  For a two-component action [step] returns, and when the ball's y
    is above the table height 700 after the physics update it returns
    terminated = true with reward exactly -10. *)
Theorem step_bottom_goal_reward {engine : Pymunk}
  (action : ndarray) (env : AirHockeyEnv) :
  well_shaped action ->
  returns (step action) env (fun r env' =>
    700 < ball_y env' ->
    terminated r = true /\ reward r == -10).
Proof.
  intros Hshape.
  destruct (step_well_shaped action env Hshape)
    as (r & env' & Hstep & Hjudged & _).
  unfold returns. rewrite Hstep.
  destruct Hjudged as (_ & _ & _ & Hbottom & _). exact Hbottom.
Qed.

Lemma step_bottom_goal_reward_witness :
  well_shaped zero_action /\
  returns (step (engine := Ballistic) zero_action) env_bottom_goal
    (fun r env' =>
       700 < ball_y env' /\ terminated r = true /\ reward r == -10).
Proof.
  assert (Hshape : well_shaped zero_action) by (unfold well_shaped; cbn; lia).
  split; [exact Hshape |].
  generalize (step_bottom_goal_reward (engine := Ballistic)
                zero_action env_bottom_goal Hshape).
  unfold returns. rewrite step_into_bottom_goal.
  intros Hgoal.
  assert (Hy : 700 < ball_y (mid_episode {| x := 250; y := 703 |}
                               {| x := 0; y := 300 |} 58))
    by (cbn; lra).
  split; [exact Hy | exact (Hgoal Hy)].
Defined.

(** C6.  For a two-component action [step] returns, and when no goal is
    scored (the ball's y is within [0, 700] after the physics update) the
    episode is not terminated and the reward is the shaping term alone:
    0.001 if the ball's y is below height / 2 = 350, and 0 otherwise. *)
Theorem step_no_goal_reward {engine : Pymunk}
  (action : ndarray) (env : AirHockeyEnv) :
  well_shaped action ->
  returns (step action) env (fun r env' =>
    0 <= ball_y env' <= 700 ->
    terminated r = false /\
    reward r == (if Qlt_le_dec (ball_y env') (height / 2) then 0.001 else 0)).
Proof.
  intros Hshape.
  destruct (step_well_shaped action env Hshape)
    as (r & env' & Hstep & Hjudged & _).
  unfold returns. rewrite Hstep.
  destruct Hjudged as (_ & _ & _ & _ & Hplay).
  intros Hin. destruct (Hplay Hin) as (Hterm & Hupper & Hlower).
  split; [exact Hterm |].
  unfold ball_y.
  destruct (Qlt_le_dec (y (position (ball (space env')))) (height / 2))
    as [Hhalf | Hhalf]; auto.
Qed.

Example step_in_upper_half :
  step (engine := Ballistic) zero_action env_upper_half
  = inr ({| obs := [202 # 500; 201 # 700; 120 # 1000; 60 # 1000;
                    250 # 500; 100 # 700; 250 # 500; 600 # 700];
            reward := 0 + 0.001; terminated := false; truncated := false |},
         {| with_bot := true;
            space :=
              set_mouse_body (_create_paddle 242 600)
                (space (mid_episode {| x := 202; y := 201 |}
                          {| x := 120; y := 60 |} 58));
            steps := 58 |}).
Proof. vm_compute. reflexivity. Qed.

Example step_in_lower_half :
  step (engine := Ballistic) zero_action env_lower_half
  = inr ({| obs := [202 # 500; 501 # 700; 120 # 1000; 60 # 1000;
                    250 # 500; 100 # 700; 250 # 500; 600 # 700];
            reward := 0; terminated := false; truncated := false |},
         {| with_bot := true;
            space :=
              set_mouse_body (_create_paddle 242 600)
                (space (mid_episode {| x := 202; y := 501 |}
                          {| x := 120; y := 60 |} 58));
            steps := 58 |}).
Proof. vm_compute. reflexivity. Qed.

Lemma step_no_goal_reward_witness :
  well_shaped zero_action /\
  returns (step (engine := Ballistic) zero_action) env_upper_half
    (fun r env' =>
       0 <= ball_y env' <= 700 /\ ball_y env' < height / 2 /\
       terminated r = false /\ reward r == 0.001).
Proof.
  assert (Hshape : well_shaped zero_action) by (unfold well_shaped; cbn; lia).
  split; [exact Hshape |].
  generalize (step_no_goal_reward (engine := Ballistic)
                zero_action env_upper_half Hshape).
  unfold returns. rewrite step_in_upper_half.
  unfold ball_y. cbn [space ball position y set_mouse_body mid_episode].
  intros Hplay.
  assert (Hin : 0 <= 201 <= 700) by lra.
  assert (Hhalf : 201 < height / 2) by (table_constants; lra).
  destruct (Hplay Hin) as [Hterm Hreward].
  destruct (Qlt_le_dec 201 (height / 2)) as [_ | Hge]; [| lra].
  repeat split; try assumption; lra.
Defined.

(* ===================================================================== *)
(** ** Truncation *)

(** C2, as the code has it.  After [reset] the counter is 0 and every call
    of [step] returns; the call number [S n] returns truncated = true
    exactly when it is past 2000: the first 2000 calls return
    truncated = false and the 2001st is the first to return true, whether
    or not an earlier call terminated the episode. *)
Theorem truncated_after_2000_steps {engine : Pymunk}
  (launch : Vec2d) (actions : list ndarray) (env : AirHockeyEnv) :
  Forall well_shaped actions ->
  returns (bind (reset launch) (fun _ => run actions)) env (fun rs env' =>
    length rs = length actions /\
    forall (n : nat) (r : StepResult),
      nth_error rs n = Some r ->
      (truncated r = true <-> (2001 <= S n)%nat)).
Proof.
  intros Hshapes. unfold returns, bind.
  cbv [reset bind get modify ret].
  match goal with
  | |- context [run actions ?e] =>
    destruct (run_counts actions Hshapes e) as (rs & env' & Hrun & Hlen & Htr);
    rewrite Hrun
  end.
  split; [exact Hlen |].
  intros n r Hn. rewrite (Htr n r Hn). cbn [steps].
  rewrite Z.ltb_lt. lia.
Qed.

Lemma truncated_after_2000_steps_witness :
  Forall well_shaped (repeat zero_action 2001) /\
  returns (bind (reset {| x := 40; y := -70 |})
             (fun _ => run (engine := Ballistic) (repeat zero_action 2001)))
    (fresh_env true)
    (fun rs _ =>
       length rs = 2001%nat /\
       (forall r, nth_error rs 1999 = Some r -> truncated r = false) /\
       (forall r, nth_error rs 2000 = Some r -> truncated r = true)).
Proof.
  assert (Hshapes : Forall well_shaped (repeat zero_action 2001)).
  { apply Forall_forall. intros action Hin.
    apply repeat_spec in Hin. subst action.
    unfold well_shaped. cbn. lia. }
  split; [exact Hshapes |].
  generalize (truncated_after_2000_steps (engine := Ballistic)
                {| x := 40; y := -70 |} (repeat zero_action 2001)
                (fresh_env true) Hshapes).
  unfold returns.
  destruct (bind (reset {| x := 40; y := -70 |})
              (fun _ => run (repeat zero_action 2001)) (fresh_env true))
    as [e | [rs env']]; [exact (fun H => H) |].
  intros [Hlen Htr]. rewrite repeat_length in Hlen.
  split; [exact Hlen |]. split; intros r Hr.
  - destruct (truncated r) eqn:Ht; [| reflexivity].
    pose proof (proj1 (Htr _ _ Hr) Ht). lia.
  - apply (Htr _ _ Hr). lia.
Defined.

(** C2 as stated fails: from [reset] in play mode, with everything at rest,
    no call terminates the episode and the 2000th call of [step] returns
    truncated = false. *)
Lemma truncated_not_at_step_2000 :
  returns (bind (reset {| x := 0; y := 0 |})
             (fun _ => run (engine := Ballistic) (repeat zero_action 2000)))
    (fresh_env false)
    (fun rs _ =>
       length rs = 2000%nat /\
       forallb (fun r => negb (terminated r)) rs = true /\
       option_map truncated (nth_error rs 1999) = Some false).
Proof.
  vm_compute. repeat split; reflexivity.
Qed.

(* ===================================================================== *)
(** ** Action and observation *)

(** C4, as the code has it.  For every action with at least two
    components, whatever their values, [_apply_action] raises nothing and
    hands the engine a force whose components are the action's first two
    components clamped to [-1, 1] and multiplied by force_mult = 50000, so
    each has magnitude at most 50000. *)
Theorem apply_action_force_bounded {engine : Pymunk}
  (paddle : Body) (action : ndarray) :
  well_shaped action ->
  exists f : Vec2d,
    _apply_action paddle action
    = inr (apply_force_at_local_point f paddle) /\
    x f = np_clip (nth 0 action 0) (-1) 1 * 50000 /\
    y f = np_clip (nth 1 action 0) (-1) 1 * 50000 /\
    Qabs (x f) <= 50000 /\ Qabs (y f) <= 50000.
Proof.
  intros Hshape.
  destruct (well_shaped_inv action Hshape) as (a0 & a1 & rest & ->).
  exists {| x := np_clip a0 (-1) 1 * 50000; y := np_clip a1 (-1) 1 * 50000 |}.
  split; [reflexivity |]. cbn [x y nth].
  assert (H0 : -1 <= np_clip a0 (-1) 1 <= 1)
    by (apply np_clip_bounds; lra).
  assert (H1 : -1 <= np_clip a1 (-1) 1 <= 1)
    by (apply np_clip_bounds; lra).
  repeat split; try reflexivity; apply Qabs_Qle_condition; lra.
Qed.

Example apply_action_out_of_range :
  _apply_action (engine := Ballistic) (_create_paddle 250 100) [3; -7]
  = inr {| position := {| x := 250; y := 100 |};
           velocity := {| x := 0; y := 0 |};
           force := {| x := 50000; y := -50000 |} |}.
Proof. vm_compute. reflexivity. Qed.

Lemma apply_action_force_bounded_witness :
  well_shaped [3; -7] /\
  exists f : Vec2d,
    _apply_action (engine := Ballistic) (_create_paddle 250 100) [3; -7]
    = inr (apply_force_at_local_point (Pymunk := Ballistic) f
             (_create_paddle 250 100)) /\
    x f = np_clip (nth 0 [3; -7] 0) (-1) 1 * 50000 /\
    y f = np_clip (nth 1 [3; -7] 0) (-1) 1 * 50000 /\
    Qabs (x f) <= 50000 /\ Qabs (y f) <= 50000.
Proof.
  assert (Hshape : well_shaped [3; -7]) by (unfold well_shaped; cbn; lia).
  split; [exact Hshape |].
  exact (apply_action_force_bounded (engine := Ballistic)
           (_create_paddle 250 100) [3; -7] Hshape).
Defined.

(** C4 as stated fails for an action with fewer than two components: the
    one-component action [3] makes [_apply_action], and so [step], raise
    IndexError. *)
Lemma apply_action_one_component_raises :
  _apply_action (engine := Ballistic) (_create_paddle 250 100) [3]
  = inl IndexError /\
  step (engine := Ballistic) [3] env_upper_half = inl IndexError.
Proof. split; reflexivity. Qed.

(** The bound is per component: the clamped action (1, 1) gives a force of
    Euclidean length 50000 * sqrt 2. *)
Example applied_force_diagonal :
  let f := applied_force 1 1 in
  x f == 50000 /\ y f == 50000 /\
  50000 * 50000 < x f * x f + y f * y f.
Proof. vm_compute. repeat split; reflexivity. Qed.

(** C7.  When the ball and both paddle centres are on the 500 x 700 table
    and each component of the ball's velocity has magnitude at most 1000,
    the observation has 8 entries, ball x / width, ball y / height,
    ball vx / 1000, ball vy / 1000, AI paddle x / width, AI paddle
    y / height, agent paddle x / width, agent paddle y / height, and each
    lies in [-1, 1]. *)
Theorem obs_in_unit_range (env : AirHockeyEnv) :
  in_bounds env ->
  let sp := space env in
  _get_obs env
  = [x (position (ball sp)) / 500; y (position (ball sp)) / 700;
     x (velocity (ball sp)) / 1000; y (velocity (ball sp)) / 1000;
     x (position (ai_paddle sp)) / 500; y (position (ai_paddle sp)) / 700;
     x (position (agent_paddle sp)) / 500;
     y (position (agent_paddle sp)) / 700] /\
  Forall (fun v => -1 <= v <= 1) (_get_obs env).
Proof.
  unfold in_bounds, on_table. cbv zeta.
  intros ((Hbx & Hby) & (Hax & Hay) & (Hox & Hoy) & Hvx & Hvy).
  apply Qabs_Qle_condition in Hvx, Hvy.
  split; [reflexivity |].
  unfold _get_obs. cbv zeta. table_constants.
  repeat constructor; lra.
Qed.

Lemma obs_in_unit_range_witness :
  in_bounds env_upper_half /\
  Forall (fun v => -1 <= v <= 1) (_get_obs env_upper_half).
Proof.
  assert (Hin : in_bounds env_upper_half).
  { unfold in_bounds, on_table. cbn. table_constants.
    repeat split; try lra; apply Qabs_Qle_condition; lra. }
  split; [exact Hin |].
  exact (proj2 (obs_in_unit_range env_upper_half Hin)).
Defined.

(* ===================================================================== *)
(** ** The bot within [step] *)

(** The state [step] leaves, from the state at the start of its physics
    loop. *)
Lemma after_step_from_controls {engine : Pymunk}
  (a0 a1 : Q) (env : AirHockeyEnv) :
  after_step a0 a1 env
  = set_steps (steps env + 1)
      (Nat.iter 10 substep (after_controls a0 a1 env)).
Proof.
  unfold after_step. cbv zeta.
  rewrite steps_substeps, steps_after_controls. reflexivity.
Qed.

(** With the bot enabled the physics loop starts from the state [_move_bot]
    leaves; the push on the AI paddle comes first and touches nothing the
    bot reads. *)
Lemma after_controls_bot_on {engine : Pymunk}
  (a0 a1 : Q) (env : AirHockeyEnv) :
  with_bot env = true ->
  exists env1 : AirHockeyEnv,
    after_controls a0 a1 env = _move_bot env1 /\
    ball (space env1) = ball (space env) /\
    mouse_body (space env1) = mouse_body (space env).
Proof.
  intros Hbot.
  exists (set_space
            (set_ai_paddle
               (apply_force_at_local_point (applied_force a0 a1)
                  (ai_paddle (space env)))
               (space env)) env).
  split; [| split; reflexivity].
  unfold after_controls. cbv zeta.
  cbn [with_bot set_space]. rewrite Hbot. reflexivity.
Qed.

(** C8.  On every call of [step] with the bot enabled and a two-component
    action, [step] returns and its ten physics substeps start from a state
    [env_c] in which the ball is where it was and the bot's control point
    has been moved: its y is height - 100 = 600 and its x, in [25, 475], is
    the clamp of a target [t] that is at most 8 away from the old x, equals
    the ball's x when the ball is horizontally closer than 8, and is
    otherwise exactly 8 nearer to the ball.  From an old x in [25, 475] the
    control point itself moves by at most 8 and never away from the
    ball. *)
Theorem step_bot_tracks_ball {engine : Pymunk}
  (action : ndarray) (env : AirHockeyEnv) :
  well_shaped action -> with_bot env = true ->
  let ball_x := x (position (ball (space env))) in
  let current_x := x (position (mouse_body (space env))) in
  exists env_c : AirHockeyEnv,
    returns (step action) env (fun _ env' =>
      env' = set_steps (steps env + 1) (Nat.iter 10 substep env_c)) /\
    ball (space env_c) = ball (space env) /\
    let p' := position (mouse_body (space env_c)) in
    (y p' = height - 100 /\ y p' == 600) /\
    (paddle_radius <= x p' <= width - paddle_radius /\ 25 <= x p' <= 475) /\
    (exists t : Q,
       x p' = np_clip t paddle_radius (width - paddle_radius) /\
       Qabs (t - current_x) <= 8 /\
       (Qabs (ball_x - current_x) < 8 -> t == ball_x) /\
       (8 <= Qabs (ball_x - current_x) ->
        Qabs (ball_x - t) == Qabs (ball_x - current_x) - 8)) /\
    (Qabs (ball_x - current_x) < 8 -> 25 <= ball_x <= 475 ->
     x p' == ball_x) /\
    (25 <= current_x <= 475 ->
     Qabs (x p' - current_x) <= 8 /\
     Qabs (ball_x - x p') <= Qabs (ball_x - current_x)).
Proof.
  intros Hshape Hbot. cbv zeta.
  destruct (well_shaped_inv action Hshape) as (a0 & a1 & rest & ->).
  destruct (step_two_components a0 a1 rest env) as (r & Hstep & _).
  destruct (after_controls_bot_on a0 a1 env Hbot)
    as (env1 & Hcontrols & Hball & Hmouse).
  exists (after_controls a0 a1 env).
  split.
  { unfold returns. rewrite Hstep. apply after_step_from_controls. }
  rewrite Hcontrols.
  pose proof (move_bot_tracks_ball env1) as Hmove. cbv zeta in Hmove.
  rewrite Hball, Hmouse in Hmove.
  destruct Hmove as (Hy & Hx & Htarget & Hsnap & Hcap & Hframe).
  destruct Hframe as (Hsame & _).
  split; [exact Hsame |].
  split; [exact Hy |]. split; [exact Hx |]. split; [exact Htarget |].
  split; [exact Hsnap | exact Hcap].
Qed.

Lemma step_bot_tracks_ball_witness :
  well_shaped zero_action /\ with_bot env_lower_half = true /\
  exists env_c : AirHockeyEnv,
    returns (step (engine := Ballistic) zero_action) env_lower_half
      (fun _ env' =>
         env' = set_steps (57 + 1)
                  (Nat.iter 10 (substep (engine := Ballistic)) env_c)) /\
    x (position (mouse_body (space env_c))) == 242 /\
    y (position (mouse_body (space env_c))) == 600.
Proof.
  assert (Hshape : well_shaped zero_action) by (unfold well_shaped; cbn; lia).
  assert (Hbot : with_bot env_lower_half = true) by reflexivity.
  split; [exact Hshape |]. split; [exact Hbot |].
  destruct (step_bot_tracks_ball (engine := Ballistic) zero_action
              env_lower_half Hshape Hbot)
    as (env_c & Hret & _ & (_ & Hy) & _ & (t & Hclip & Hcap & _ & Hfar) & _).
  exists env_c.
  split; [exact Hret |]. split; [| exact Hy].
  change (x (position (ball (space env_lower_half)))) with 200 in *.
  change (x (position (mouse_body (space env_lower_half)))) with 250 in *.
  assert (Hgap : 8 <= Qabs (200 - 250))
    by (apply Qabs_case; intros; lra).
  pose proof (Hfar Hgap) as Ht. clear Hfar.
  assert (Ht242 : t == 242).
  { clear - Ht Hcap.
    apply Qabs_Qle_condition in Hcap.
    assert (H50 : Qabs (200 - 250) == 50) by reflexivity.
    rewrite H50 in Ht. clear H50.
    revert Ht. apply Qabs_case; intros; lra. }
  rewrite Hclip.
  rewrite np_clip_inside; [exact Ht242 | table_constants; lra].
Defined.

(* ===================================================================== *)
(** ** More on the paddle constraints *)

Lemma np_clip_idempotent (v lo hi : Q) :
  lo <= hi -> np_clip (np_clip v lo hi) lo hi == np_clip v lo hi.
Proof.
  intros Hlh. apply np_clip_inside. apply np_clip_bounds. exact Hlh.
Qed.

(** X1.  A paddle that is already on the table and on its own half is not
    moved by [_constrain_paddle_movement]: both paddles keep their
    positions. *)
Theorem constrain_keeps_legal_paddles (env : AirHockeyEnv) :
  agent_in_half env -> ai_in_half env ->
  let env' := _constrain_paddle_movement env in
  same_point (position (agent_paddle (space env')))
    (position (agent_paddle (space env))) /\
  same_point (position (ai_paddle (space env')))
    (position (ai_paddle (space env))).
Proof.
  unfold agent_in_half, ai_in_half, same_point. cbv zeta.
  intros (Hax & Hay) (Hix & Hiy). cbn.
  repeat split; apply np_clip_inside; assumption.
Qed.

Lemma constrain_keeps_legal_paddles_witness :
  agent_in_half at_rest /\ ai_in_half at_rest /\
  same_point (position (agent_paddle
                          (space (_constrain_paddle_movement at_rest))))
    (position (agent_paddle (space at_rest))) /\
  same_point (position (ai_paddle
                          (space (_constrain_paddle_movement at_rest))))
    (position (ai_paddle (space at_rest))).
Proof.
  assert (Hagent : agent_in_half at_rest)
    by (unfold agent_in_half; cbn; table_constants; lra).
  assert (Hai : ai_in_half at_rest)
    by (unfold ai_in_half; cbn; table_constants; lra).
  split; [exact Hagent |]. split; [exact Hai |].
  exact (constrain_keeps_legal_paddles at_rest Hagent Hai).
Defined.

(** X2.  [_constrain_paddle_movement] is idempotent: enforcing the
    constraints a second time moves neither paddle. *)
Theorem constrain_idempotent (env : AirHockeyEnv) :
  let env' := _constrain_paddle_movement env in
  let env'' := _constrain_paddle_movement env' in
  same_point (position (agent_paddle (space env'')))
    (position (agent_paddle (space env'))) /\
  same_point (position (ai_paddle (space env'')))
    (position (ai_paddle (space env'))).
Proof.
  cbv zeta. unfold same_point. cbn.
  repeat split; apply np_clip_idempotent; table_constants; lra.
Qed.

(* ===================================================================== *)
(** ** The bot chasing a ball that keeps its x *)

Lemma move_bot_gap (env : AirHockeyEnv) :
  let ball_x := x (position (ball (space env))) in
  let current_x := x (position (mouse_body (space env))) in
  let new_x := x (position (mouse_body (space (_move_bot env)))) in
  25 <= ball_x <= 475 -> 25 <= current_x <= 475 ->
  25 <= new_x <= 475 /\
  Qabs (ball_x - new_x) == Qmax 0 (Qabs (ball_x - current_x) - 8).
Proof.
  cbv zeta. intros Hball Hcur.
  pose proof (bot_target_spec env) as Ht. cbv zeta in Ht.
  change (x (position (mouse_body (space (_move_bot env)))))
    with (np_clip (bot_target env) paddle_radius (width - paddle_radius)).
  set (ball_x := x (position (ball (space env)))) in *.
  set (current_x := x (position (mouse_body (space env)))) in *.
  set (t := bot_target env) in *. clearbody t.
  destruct Ht as (Hcap & Hsnap & Hright & Hleft).
  assert (Hbounds : paddle_radius <= np_clip t paddle_radius
                      (width - paddle_radius) <= width - paddle_radius)
    by (apply np_clip_bounds; table_constants; lra).
  split; [table_constants; lra |].
  assert (Hin : 25 <= t <= 475).
  { destruct (Qlt_le_dec (Qabs (ball_x - current_x)) 8) as [Hnear | Hfar].
    - pose proof (Hsnap Hnear). lra.
    - revert Hfar. apply Qabs_case; intros Hs Hfar.
      + pose proof (Hright Hfar). lra.
      + assert (Hl : ball_x - current_x <= -8) by lra.
        pose proof (Hleft Hl). lra. }
  assert (Hclip : np_clip t paddle_radius (width - paddle_radius) == t)
    by (apply np_clip_inside; table_constants; lra).
  rewrite Hclip. clear Hclip Hbounds Hcap.
  destruct (Q.max_spec 0 (Qabs (ball_x - current_x) - 8))
    as [[Hm Em] | [Hm Em]]; rewrite Em; clear Em.
  - assert (Hfar : 8 <= Qabs (ball_x - current_x)) by lra. clear Hm Hsnap.
    revert Hfar. apply Qabs_case; intros Hs Hfar.
    + rewrite (Hright Hfar). apply Qabs_case; intros; lra.
    + assert (Hl : ball_x - current_x <= -8) by lra.
      rewrite (Hleft Hl). apply Qabs_case; intros; lra.
  - destruct (Qlt_le_dec (Qabs (ball_x - current_x)) 8) as [Hnear | Hfar].
    + rewrite (Hsnap Hnear). apply Qabs_case; intros; lra.
    + assert (Heq : Qabs (ball_x - current_x) == 8) by lra.
      clear Hm Hsnap Hfar. revert Heq. apply Qabs_case; intros Hs Heq.
      * assert (Hr : 8 <= ball_x - current_x) by lra.
        rewrite (Hright Hr). apply Qabs_case; intros; lra.
      * assert (Hl : ball_x - current_x <= -8) by lra.
        rewrite (Hleft Hl). apply Qabs_case; intros; lra.
Qed.

(** X3.  With the ball's x and the control point's x both in [25, 475] and
    the ball keeping its x, [n] calls of [_move_bot] leave the control
    point at horizontal distance max(0, d - 8 n) from the ball, where d is
    the distance at the start: the bot closes in by 8 per call, then sits
    on the ball's x.  The ball is not touched. *)
Theorem move_bot_closes_in (env : AirHockeyEnv) (n : nat) :
  let ball_x := x (position (ball (space env))) in
  let current_x := x (position (mouse_body (space env))) in
  let env_n := Nat.iter n _move_bot env in
  25 <= ball_x <= 475 -> 25 <= current_x <= 475 ->
  ball (space env_n) = ball (space env) /\
  25 <= x (position (mouse_body (space env_n))) <= 475 /\
  Qabs (ball_x - x (position (mouse_body (space env_n))))
  == Qmax 0 (Qabs (ball_x - current_x) - 8 * inject_Z (Z.of_nat n)).
Proof.
  cbv zeta. intros Hball Hcur.
  induction n as [| n IH].
  - cbn [Nat.iter nat_rect]. split; [reflexivity |]. split; [exact Hcur |].
    change (inject_Z (Z.of_nat 0)) with 0.
    destruct (Q.max_spec 0 (Qabs (x (position (ball (space env)))
                                  - x (position (mouse_body (space env))))
                            - 8 * 0)) as [[Hm Em] | [Hm Em]]; rewrite Em.
    + lra.
    + revert Hm. apply Qabs_case; intros; lra.
  - rewrite Nat.iter_succ.
    destruct IH as (Hsame & Hin & Hgap).
    set (env_n := Nat.iter n _move_bot env) in *. clearbody env_n.
    pose proof (move_bot_gap env_n) as Hstep. cbv zeta in Hstep.
    change (ball (space (_move_bot env_n))) with (ball (space env_n)).
    rewrite Hsame in Hstep.
    destruct (Hstep Hball Hin) as (Hin' & Hgap').
    split; [exact Hsame |]. split; [exact Hin' |].
    rewrite Hgap'. clear Hgap' Hstep.
    rewrite Nat2Z.inj_succ. unfold Z.succ. rewrite inject_Z_plus.
    change (inject_Z 1) with 1.
    set (g := Qabs (x (position (ball (space env)))
                    - x (position (mouse_body (space env_n))))) in *.
    set (d := Qabs (x (position (ball (space env)))
                    - x (position (mouse_body (space env))))) in *.
    set (k := inject_Z (Z.of_nat n)) in *.
    clearbody g d k.
    destruct (Q.max_spec 0 (d - 8 * k)) as [[Hm Em] | [Hm Em]];
      rewrite Em in Hgap; clear Em;
      destruct (Q.max_spec 0 (g - 8)) as [[Hm1 Em1] | [Hm1 Em1]];
      rewrite Em1; clear Em1;
      destruct (Q.max_spec 0 (d - 8 * (k + 1))) as [[Hm2 Em2] | [Hm2 Em2]];
      rewrite Em2; clear Em2; lra.
Qed.

Lemma move_bot_closes_in_witness :
  let env := env_lower_half in
  25 <= x (position (ball (space env))) <= 475 /\
  25 <= x (position (mouse_body (space env))) <= 475 /\
  Qabs (x (position (ball (space env)))
        - x (position (mouse_body (space (Nat.iter 3 _move_bot env)))))
  == Qmax 0 (Qabs (x (position (ball (space env)))
                   - x (position (mouse_body (space env))))
             - 8 * inject_Z (Z.of_nat 3)).
Proof.
  cbv zeta.
  assert (Hball : 25 <= x (position (ball (space env_lower_half))) <= 475)
    by (cbn; lra).
  assert (Hcur : 25 <= x (position (mouse_body (space env_lower_half)))
                 <= 475)
    by (cbn; lra).
  split; [exact Hball |]. split; [exact Hcur |].
  exact (proj2 (proj2 (move_bot_closes_in env_lower_half 3 Hball Hcur))).
Defined.

(* ===================================================================== *)
(** ** The mirrored observation of play mode *)

(** X4.  The observation [play_game] hands to the policy is the
    observation of the environment mirrored along the centre line (y
    replaced by height - y, y velocity negated), entry by entry; and
    mirroring twice gives the plain observation back. *)
Theorem fake_obs_is_obs_of_reflection (env : AirHockeyEnv) :
  array_eq (fake_obs env) (_get_obs (reflect env)) /\
  array_eq (fake_obs (reflect env)) (_get_obs env).
Proof.
  unfold array_eq, fake_obs, _get_obs, reflect. cbn.
  table_constants.
  split; repeat constructor; lra.
Qed.

(** X5.  After the paddle constraints, the plain observation has the AI
    paddle's y entry (index 5) at most 325/700 and the agent paddle's
    (index 7) at least 375/700; in the mirrored observation of play mode
    it is the other way round: the AI paddle's entry is at least 375/700
    and the player's at most 325/700. *)
Theorem fake_obs_swaps_halves (env : AirHockeyEnv) :
  let env' := _constrain_paddle_movement env in
  nth 5 (_get_obs env') 0 <= 325 / 700 /\
  375 / 700 <= nth 7 (_get_obs env') 0 /\
  375 / 700 <= nth 5 (fake_obs env') 0 /\
  nth 7 (fake_obs env') 0 <= 325 / 700.
Proof.
  cbv zeta.
  destruct (constrain_in_half env) as ((_ & Hay) & (_ & Hiy)).
  cbv zeta in Hay, Hiy.
  set (env' := _constrain_paddle_movement env) in *. clearbody env'.
  unfold fake_obs, _get_obs. cbn [nth].
  table_constants. repeat split; lra.
Qed.

(* ===================================================================== *)
(** ** The walls and the goal mouths *)

Lemma Qmult_pos_zero (a b : Q) : 0 < a -> a * b == 0 -> b == 0.
Proof.
  intros Ha Hab.
  destruct (Qmult_integral _ _ Hab) as [Ha0 | Hb0]; [lra | exact Hb0].
Qed.

Lemma on_horizontal (p a b : Vec2d) :
  y a == y b -> x a < x b ->
  (on_segment p (a, b) <-> y p == y a /\ x a <= x p <= x b).
Proof.
  intros Hy Hx. unfold on_segment. cbn [fst snd].
  rewrite (Q.min_l (x a) (x b)) by lra.
  rewrite (Q.max_r (x a) (x b)) by lra.
  split.
  - intros (Hcol & Hbx & _).
    split; [| exact Hbx].
    assert (Hzero : (x b - x a) * (y p - y a) == 0).
    { rewrite Hcol.
      setoid_replace (y b - y a) with 0 by lra. ring. }
    pose proof (Qmult_pos_zero (x b - x a) (y p - y a)) as Hz.
    assert (Hd : y p - y a == 0) by (apply Hz; [lra | exact Hzero]).
    lra.
  - intros (Hyp & Hbx).
    split; [| split; [exact Hbx |]].
    + setoid_replace (y p - y a) with 0 by lra.
      setoid_replace (y b - y a) with 0 by lra. ring.
    + destruct (Q.min_spec (y a) (y b)) as [[? Em] | [? Em]];
        destruct (Q.max_spec (y a) (y b)) as [[? Ex] | [? Ex]];
        rewrite Em, Ex; lra.
Qed.

Lemma on_vertical (p a b : Vec2d) :
  x a == x b -> y a < y b ->
  (on_segment p (a, b) <-> x p == x a /\ y a <= y p <= y b).
Proof.
  intros Hx Hy. unfold on_segment. cbn [fst snd].
  rewrite (Q.min_l (y a) (y b)) by lra.
  rewrite (Q.max_r (y a) (y b)) by lra.
  split.
  - intros (Hcol & _ & Hby).
    split; [| exact Hby].
    assert (Hzero : (y b - y a) * (x p - x a) == 0).
    { rewrite <- Hcol.
      setoid_replace (x b - x a) with 0 by lra. ring. }
    pose proof (Qmult_pos_zero (y b - y a) (x p - x a)) as Hz.
    assert (Hd : x p - x a == 0) by (apply Hz; [lra | exact Hzero]).
    lra.
  - intros (Hxp & Hby).
    split; [| split; [| exact Hby]].
    + setoid_replace (x p - x a) with 0 by lra.
      setoid_replace (x b - x a) with 0 by lra. ring.
    + destruct (Q.min_spec (x a) (x b)) as [[? Em] | [? Em]];
        destruct (Q.max_spec (x a) (x b)) as [[? Ex] | [? Ex]];
        rewrite Em, Ex; lra.
Qed.

(** The walls through a point, one case per segment of [_create_walls]. *)
Lemma on_wall_cases (p : Vec2d) :
  on_wall p <->
  (x p == 0 /\ 0 <= y p <= 700) \/
  (x p == 500 /\ 0 <= y p <= 700) \/
  (y p == 0 /\ 0 <= x p <= 160) \/
  (y p == 0 /\ 340 <= x p <= 500) \/
  (y p == 700 /\ 0 <= x p <= 160) \/
  (y p == 700 /\ 340 <= x p <= 500).
Proof.
  unfold on_wall, _create_walls, static_lines. cbn [map fst].
  repeat rewrite Exists_cons. rewrite Exists_nil.
  rewrite on_vertical by (cbn; table_constants; lra).
  rewrite on_vertical by (cbn; table_constants; lra).
  rewrite on_horizontal
    by (cbn; cbv delta [goal_width]; table_constants; lra).
  rewrite on_horizontal
    by (cbn; cbv delta [goal_width]; table_constants; lra).
  rewrite on_horizontal
    by (cbn; cbv delta [goal_width]; table_constants; lra).
  rewrite on_horizontal
    by (cbn; cbv delta [goal_width]; table_constants; lra).
  cbn [x y]. cbv delta [goal_width]. table_constants.
  split; intros H; repeat destruct H as [H | H]; try contradiction;
    destruct H as (H1 & H2 & H3).
  - left. repeat split; lra.
  - right; left. repeat split; lra.
  - right; right; left. repeat split; lra.
  - right; right; right; left. repeat split; lra.
  - right; right; right; right; left. repeat split; lra.
  - right; right; right; right; right. repeat split; lra.
  - left. repeat split; lra.
  - right; left. repeat split; lra.
  - right; right; left. repeat split; lra.
  - right; right; right; left. repeat split; lra.
  - right; right; right; right; left. repeat split; lra.
  - right; right; right; right; right; left. repeat split; lra.
Qed.

Lemma square_le_bound (a r : Q) :
  0 <= r -> a * a <= r * r -> - r <= a <= r.
Proof.
  intros Hr Hsq.
  destruct (Qlt_le_dec r a) as [Hbig | Hle].
  - exfalso.
    assert (Hpos : 0 < (a - r) * (a + r))
      by (apply Qmult_lt_0_compat; lra).
    setoid_replace ((a - r) * (a + r)) with (a * a - r * r) in Hpos by ring.
    lra.
  - destruct (Qlt_le_dec a (- r)) as [Hsmall | Hge]; [| lra].
    exfalso.
    assert (Hpos : 0 < (- a - r) * (- a + r))
      by (apply Qmult_lt_0_compat; lra).
    setoid_replace ((- a - r) * (- a + r)) with (a * a - r * r) in Hpos
      by ring.
    lra.
Qed.

Lemma bound_square_le (a r : Q) :
  - r <= a <= r -> a * a <= r * r.
Proof.
  intros (Hlo & Hhi).
  assert (Hpos : 0 <= (r - a) * (r + a))
    by (apply Qmult_le_0_compat; lra).
  setoid_replace ((r - a) * (r + a)) with (r * r - a * a) in Hpos by ring.
  lra.
Qed.

(** A horizontal segment shape and a point level with its centre line. *)
Lemma in_horizontal_shape_level (p a b : Vec2d) (r : Q) :
  0 <= r -> y a == y b -> x a < x b -> y p == y a ->
  (in_segment_shape p ((a, b), r) <-> x a - r <= x p <= x b + r).
Proof.
  intros Hr Hy Hx Hlevel. unfold in_segment_shape. cbn [fst snd].
  split.
  - intros (q & Hq & Hd).
    apply (on_horizontal q a b Hy Hx) in Hq. destruct Hq as (Hqy & Hqx).
    unfold dist2 in Hd.
    pose proof (Qsquare_nonneg (y p - y q)) as Hsq.
    assert (Hxx : (x p - x q) * (x p - x q) <= r * r) by lra.
    pose proof (square_le_bound _ _ Hr Hxx). lra.
  - intros Hin.
    destruct (Qlt_le_dec (x p) (x a)) as [Hleft | Hnl];
      [| destruct (Qlt_le_dec (x b) (x p)) as [Hright | Hnr]].
    + exists a. split.
      * apply (on_horizontal a a b Hy Hx). split; [reflexivity | lra].
      * unfold dist2.
        setoid_replace ((y p - y a) * (y p - y a)) with 0
          by (setoid_replace (y p - y a) with 0 by lra; ring).
        assert (Hb : (x p - x a) * (x p - x a) <= r * r)
          by (apply bound_square_le; lra).
        lra.
    + exists b. split.
      * apply (on_horizontal b a b Hy Hx). split; [lra | lra].
      * unfold dist2.
        setoid_replace ((y p - y b) * (y p - y b)) with 0
          by (setoid_replace (y p - y b) with 0 by lra; ring).
        assert (Hb : (x p - x b) * (x p - x b) <= r * r)
          by (apply bound_square_le; lra).
        lra.
    + exists p. split.
      * apply (on_horizontal p a b Hy Hx). split; [exact Hlevel | lra].
      * unfold dist2.
        setoid_replace ((x p - x p) * (x p - x p) + (y p - y p) * (y p - y p))
          with 0 by ring.
        apply Qmult_le_0_compat; exact Hr.
Qed.

(** A horizontal segment shape and a point further than the radius above
    or below its centre line. *)
Lemma out_of_horizontal_shape (p a b : Vec2d) (r d : Q) :
  0 <= r -> y a == y b -> x a < x b ->
  r < d -> (y p - y a == d \/ y a - y p == d) ->
  ~ in_segment_shape p ((a, b), r).
Proof.
  intros Hr Hy Hx Hfar Hd (q & Hq & Hdist). cbn [fst snd] in *.
  apply (on_horizontal q a b Hy Hx) in Hq. destruct Hq as (Hqy & _).
  unfold dist2 in Hdist.
  pose proof (Qsquare_nonneg (x p - x q)) as Hsq.
  assert (Hyy : (y p - y q) * (y p - y q) <= r * r) by lra.
  pose proof (square_le_bound _ _ Hr Hyy). destruct Hd; lra.
Qed.

(** A vertical segment shape and a point beside its centre line. *)
Lemma in_vertical_shape_beside (p a b : Vec2d) (r : Q) :
  0 <= r -> x a == x b -> y a < y b -> y a <= y p <= y b ->
  (in_segment_shape p ((a, b), r) <-> x a - r <= x p <= x a + r).
Proof.
  intros Hr Hx Hy Hbeside. unfold in_segment_shape. cbn [fst snd].
  split.
  - intros (q & Hq & Hd).
    apply (on_vertical q a b Hx Hy) in Hq. destruct Hq as (Hqx & Hqy).
    unfold dist2 in Hd.
    pose proof (Qsquare_nonneg (y p - y q)) as Hsq.
    assert (Hxx : (x p - x q) * (x p - x q) <= r * r) by lra.
    pose proof (square_le_bound _ _ Hr Hxx). lra.
  - intros Hin.
    exists {| x := x a; y := y p |}. split.
    + apply (on_vertical _ a b Hx Hy). cbn [x y].
      split; [reflexivity | exact Hbeside].
    + unfold dist2. cbn [x y].
      setoid_replace ((y p - y p) * (y p - y p)) with 0 by ring.
      assert (Hb : (x p - x a) * (x p - x a) <= r * r)
        by (apply bound_square_le; lra).
      lra.
Qed.

Ltac wall_constants :=
  cbv delta [width height goal_width] in *; inv_constants.

(** X6.  The walls are segments of radius 5 whose centre lines end at
    x = 160 and x = 340 on the top edge (y = 0) and on the bottom edge
    (y = height = 700).  A point of either edge with 0 <= x <= 500 is
    inside a wall exactly when x <= 165 or 335 <= x: each end has one goal
    mouth, the open interval from 165 to 335, centred on width / 2 and
    goal_width - 2 * 5 = 170 wide. *)
Theorem goal_mouths (px : Q) :
  0 <= px <= 500 ->
  (in_wall {| x := px; y := 0 |} <-> px <= 165 \/ 335 <= px) /\
  (in_wall {| x := px; y := height |} <-> px <= 165 \/ 335 <= px) /\
  (width / 2 - goal_width / 2 == 160 /\ width / 2 + goal_width / 2 == 340) /\
  Forall (fun shape => snd shape == 5) _create_walls.
Proof.
  intros Hpx.
  split; [| split; [| split]].
  - unfold in_wall, _create_walls, static_lines. cbn [map].
    repeat rewrite Exists_cons. rewrite Exists_nil.
    rewrite in_vertical_shape_beside by (cbn [x y]; wall_constants; lra).
    rewrite in_vertical_shape_beside by (cbn [x y]; wall_constants; lra).
    rewrite in_horizontal_shape_level by (cbn [x y]; wall_constants; lra).
    rewrite in_horizontal_shape_level by (cbn [x y]; wall_constants; lra).
    cbn [x y].
    split.
    + intros [H | [H | [H | [H | [H | [H | H]]]]]];
        try (wall_constants; lra).
      * exfalso. revert H.
        apply (out_of_horizontal_shape _ _ _ 5 700);
          cbn [x y]; wall_constants; lra.
      * exfalso. revert H.
        apply (out_of_horizontal_shape _ _ _ 5 700);
          cbn [x y]; wall_constants; lra.
    + intros [H | H].
      * right; right; left. wall_constants. lra.
      * right; right; right; left. wall_constants. lra.
  - unfold in_wall, _create_walls, static_lines. cbn [map].
    repeat rewrite Exists_cons. rewrite Exists_nil.
    rewrite in_vertical_shape_beside by (cbn [x y]; wall_constants; lra).
    rewrite in_vertical_shape_beside by (cbn [x y]; wall_constants; lra).
    rewrite (in_horizontal_shape_level _ {| x := 0; y := height |})
      by (cbn [x y]; wall_constants; lra).
    rewrite (in_horizontal_shape_level _
               {| x := width / 2 + goal_width / 2; y := height |})
      by (cbn [x y]; wall_constants; lra).
    cbn [x y].
    split.
    + intros [H | [H | [H | [H | [H | [H | H]]]]]];
        try (wall_constants; lra).
      * exfalso. revert H.
        apply (out_of_horizontal_shape _ _ _ 5 700);
          cbn [x y]; wall_constants; lra.
      * exfalso. revert H.
        apply (out_of_horizontal_shape _ _ _ 5 700);
          cbn [x y]; wall_constants; lra.
    + intros [H | H].
      * right; right; right; right; left. wall_constants. lra.
      * right; right; right; right; right; left. wall_constants. lra.
  - wall_constants. lra.
  - unfold _create_walls, static_lines. cbn [map].
    repeat (apply Forall_cons; [reflexivity |]). apply Forall_nil.
Qed.

Lemma goal_mouths_witness :
  0 <= 250 <= 500 /\
  ~ in_wall {| x := 250; y := 0 |} /\
  ~ in_wall {| x := 250; y := height |} /\
  in_wall {| x := 162; y := 0 |}.
Proof.
  assert (Hpx : 0 <= 250 <= 500) by lra.
  split; [exact Hpx |].
  destruct (goal_mouths 250 Hpx) as (Htop & Hbottom & _).
  assert (Hpx' : 0 <= 162 <= 500) by lra.
  destruct (goal_mouths 162 Hpx') as (Htop' & _).
  split; [| split].
  - intros Hwall. apply Htop in Hwall. lra.
  - intros Hwall. apply Hbottom in Hwall. lra.
  - apply Htop'. left. lra.
Defined.

(** X7.  The side walls are closed: every point of the left edge (x = 0)
    and of the right edge (x = width = 500) with 0 <= y <= 700 lies on a
    wall. *)
Theorem side_walls_closed (py : Q) :
  0 <= py <= 700 ->
  on_wall {| x := 0; y := py |} /\ on_wall {| x := width; y := py |}.
Proof.
  intros Hpy. split; rewrite on_wall_cases; cbn [x y].
  - left. lra.
  - right; left. cbv delta [width]. lra.
Qed.

Lemma side_walls_closed_witness :
  0 <= 350 <= 700 /\
  on_wall {| x := 0; y := 350 |} /\ on_wall {| x := width; y := 350 |}.
Proof.
  assert (Hpy : 0 <= 350 <= 700) by lra.
  split; [exact Hpy |].
  exact (side_walls_closed 350 Hpy).
Defined.

(* ===================================================================== *)
(** ** Starting an episode *)

Lemma reset_run (launch : Vec2d) (env : AirHockeyEnv) :
  exists env' : AirHockeyEnv,
    reset launch env = inr (_get_obs env', env') /\
    with_bot env' = with_bot env /\
    at_start env' /\
    velocity (ball (space env'))
    = (if with_bot env then launch else {| x := 0; y := 0 |}) /\
    agent_in_half env' /\ ai_in_half env'.
Proof.
  cbv [reset bind get modify ret].
  eexists. split; [reflexivity |].
  split; [reflexivity |].
  split.
  { unfold at_start, same_point. cbn.
    destruct (with_bot env); cbn; table_constants;
      repeat split; try reflexivity; lra. }
  split.
  { cbn. destruct (with_bot env); reflexivity. }
  unfold agent_in_half, ai_in_half. cbn. table_constants.
  repeat split; lra.
Qed.

(** [reset] reads nothing of the old environment but the bot flag. *)
Lemma reset_reads_bot_flag (launch : Vec2d) (env1 env2 : AirHockeyEnv) :
  with_bot env1 = with_bot env2 -> reset launch env1 = reset launch env2.
Proof.
  intros Hbot. cbv [reset bind get modify ret]. rewrite Hbot. reflexivity.
Qed.

(** X8.  [reset] never raises and starts an episode: counter 0, ball at
    the table centre (250, 350), AI paddle at (250, 100), agent paddle at
    (250, 600) with the control point on it, paddles at rest and on their
    own halves; the ball moves with the random launch velocity when the bot
    is on and rests when it is off; the bot flag is kept and the returned
    observation is the one of the new state. *)
Theorem reset_starts_episode (launch : Vec2d) (env : AirHockeyEnv) :
  returns (reset launch) env (fun o env' =>
    o = _get_obs env' /\
    at_start env' /\
    with_bot env' = with_bot env /\
    velocity (ball (space env'))
    = (if with_bot env then launch else {| x := 0; y := 0 |}) /\
    agent_in_half env' /\ ai_in_half env').
Proof.
  destruct (reset_run launch env)
    as (env' & Hrun & Hbot & Hstart & Hvel & Hagent & Hai).
  unfold returns. rewrite Hrun.
  exact (conj eq_refl
           (conj Hstart (conj Hbot (conj Hvel (conj Hagent Hai))))).
Qed.

(** X9.  With both components of the launch velocity in [-200, 200], the
    range of the random draw, the observation returned by [reset] is
    [1/2, 1/2, vx/1000, vy/1000, 1/2, 1/7, 1/2, 6/7] with (vx, vy) the
    ball's velocity; its velocity entries have magnitude at most 1/5 and
    every entry lies in [-1, 1]. *)
Theorem reset_observation (launch : Vec2d) (env : AirHockeyEnv) :
  -200 <= x launch <= 200 -> -200 <= y launch <= 200 ->
  returns (reset launch) env (fun o env' =>
    array_eq o
      [1 # 2; 1 # 2;
       x (velocity (ball (space env'))) / 1000;
       y (velocity (ball (space env'))) / 1000;
       1 # 2; 1 # 7; 1 # 2; 6 # 7] /\
    Qabs (nth 2 o 0) <= 1 # 5 /\ Qabs (nth 3 o 0) <= 1 # 5 /\
    Forall (fun v => -1 <= v <= 1) o).
Proof.
  intros Hvx Hvy.
  destruct (reset_run launch env)
    as (env' & Hrun & _ & Hstart & Hvel & _).
  unfold returns. rewrite Hrun. clear Hrun.
  destruct Hstart as (_ & (Hbx & Hby) & (Hax & Hay) & (Hox & Hoy) & _).
  assert (Hv : -200 <= x (velocity (ball (space env'))) <= 200 /\
               -200 <= y (velocity (ball (space env'))) <= 200).
  { rewrite Hvel. destruct (with_bot env); cbn; lra. }
  destruct Hv as (Hbvx & Hbvy). clear Hvel.
  unfold array_eq, _get_obs. cbv zeta. cbn [nth x y] in *.
  table_constants.
  split; [| split; [| split]].
  - repeat (apply Forall2_cons; [lra |]). apply Forall2_nil.
  - apply Qabs_Qle_condition. lra.
  - apply Qabs_Qle_condition. lra.
  - repeat (apply Forall_cons; [lra |]). apply Forall_nil.
Qed.

Lemma reset_observation_witness :
  -200 <= x {| x := 40; y := -70 |} <= 200 /\
  -200 <= y {| x := 40; y := -70 |} <= 200 /\
  returns (reset {| x := 40; y := -70 |}) (fresh_env true) (fun o env' =>
    array_eq o
      [1 # 2; 1 # 2;
       x (velocity (ball (space env'))) / 1000;
       y (velocity (ball (space env'))) / 1000;
       1 # 2; 1 # 7; 1 # 2; 6 # 7] /\
    Qabs (nth 2 o 0) <= 1 # 5 /\ Qabs (nth 3 o 0) <= 1 # 5 /\
    Forall (fun v => -1 <= v <= 1) o).
Proof.
  assert (Hvx : -200 <= x {| x := 40; y := -70 |} <= 200) by (cbn; lra).
  assert (Hvy : -200 <= y {| x := 40; y := -70 |} <= 200) by (cbn; lra).
  split; [exact Hvx |]. split; [exact Hvy |].
  exact (reset_observation {| x := 40; y := -70 |} (fresh_env true) Hvx Hvy).
Defined.

(* ===================================================================== *)
(** ** More on [step] *)

Section MoreStepFacts.

Context {engine : Pymunk}.

Lemma with_bot_substeps (n : nat) (env : AirHockeyEnv) :
  with_bot (Nat.iter n substep env) = with_bot env.
Proof.
  induction n as [| n IH]; [reflexivity |].
  rewrite Nat.iter_succ. exact IH.
Qed.

Lemma with_bot_after_controls (a0 a1 : Q) (env : AirHockeyEnv) :
  with_bot (after_controls a0 a1 env) = with_bot env.
Proof.
  unfold after_controls. cbv zeta.
  match goal with |- context [if ?b then _ else _] => destruct b end;
    reflexivity.
Qed.

Lemma with_bot_set_steps (n : Z) (env : AirHockeyEnv) :
  with_bot (set_steps n env) = with_bot env.
Proof. reflexivity. Qed.

Lemma with_bot_after_step (a0 a1 : Q) (env : AirHockeyEnv) :
  with_bot (after_step a0 a1 env) = with_bot env.
Proof.
  unfold after_step. cbv zeta.
  rewrite with_bot_set_steps.
  rewrite with_bot_substeps.
  apply with_bot_after_controls.
Qed.

(** [step] returns or raises according to the shape of the action alone;
    when it returns, the bot flag is kept. *)
Lemma step_outcome (action : ndarray) (env : AirHockeyEnv) :
  (well_shaped action /\
   exists r env', step action env = inr (r, env') /\
                  judged r env' /\
                  steps env' = (steps env + 1)%Z /\
                  with_bot env' = with_bot env /\
                  agent_in_half env' /\ ai_in_half env') \/
  (~ well_shaped action /\ step action env = inl IndexError).
Proof.
  destruct (le_lt_dec 2 (length action)) as [Hshape | Hshort].
  - left. split; [exact Hshape |].
    destruct (well_shaped_inv action Hshape) as (a0 & a1 & rest & ->).
    destruct (step_two_components a0 a1 rest env) as (r & Hrun & Hjudged).
    exists r, (after_step a0 a1 env).
    split; [exact Hrun |]. split; [exact Hjudged |].
    split; [apply steps_after_step |].
    split; [apply with_bot_after_step |].
    apply after_step_paddles_in_half.
  - right.
    assert (Hnot : ~ well_shaped action) by (unfold well_shaped; lia).
    split; [exact Hnot | apply step_short_action; exact Hnot].
Qed.

Lemma run_outcome (actions : list ndarray) :
  Forall well_shaped actions ->
  forall env : AirHockeyEnv,
  exists (rs : list StepResult) (env' : AirHockeyEnv),
    run actions env = inr (rs, env') /\
    steps env' = (steps env + Z.of_nat (length actions))%Z /\
    with_bot env' = with_bot env.
Proof.
  induction 1 as [| action rest Hshape Hrest IH]; intros env.
  - exists [], env. cbn. repeat split; try reflexivity. lia.
  - destruct (step_outcome action env)
      as [(_ & r & env1 & Hstep & _ & Hsteps & Hbot & _) | (Hnot & _)];
      [| contradiction].
    destruct (IH env1) as (rs & env' & Hrun & Hsteps' & Hbot').
    exists (r :: rs), env'.
    split; [| split].
    + cbn [run]. unfold bind. rewrite Hstep, Hrun. reflexivity.
    + rewrite Hsteps', Hsteps. cbn [length]. lia.
    + rewrite Hbot', Hbot. reflexivity.
Qed.

End MoreStepFacts.

(** X10.  An episode's start does not depend on what came before: after
    any run of steps with two-component actions, [reset] gives the same
    observation and the same state as [reset] on the environment the run
    started from. *)
Theorem reset_forgets_run {engine : Pymunk}
  (launch : Vec2d) (actions : list ndarray) (env : AirHockeyEnv) :
  Forall well_shaped actions ->
  bind (run actions) (fun _ => reset launch) env = reset launch env.
Proof.
  intros Hshapes.
  destruct (run_outcome actions Hshapes env) as (rs & env' & Hrun & _ & Hbot).
  unfold bind at 1. rewrite Hrun.
  apply reset_reads_bot_flag. exact Hbot.
Qed.

Lemma reset_forgets_run_witness :
  Forall well_shaped [zero_action; [3; -7]] /\
  bind (run (engine := Ballistic) [zero_action; [3; -7]])
    (fun _ => reset {| x := 40; y := -70 |}) env_upper_half
  = reset {| x := 40; y := -70 |} env_upper_half.
Proof.
  assert (Hshapes : Forall well_shaped [zero_action; [3; -7]])
    by (repeat constructor; unfold well_shaped; cbn; lia).
  split; [exact Hshapes |].
  exact (reset_forgets_run (engine := Ballistic) {| x := 40; y := -70 |}
           [zero_action; [3; -7]] env_upper_half Hshapes).
Defined.

(** X11.  [step] raises exactly when the action has fewer than two
    components, and then it raises IndexError; with two or more it
    returns. *)
Theorem step_raises_iff_short {engine : Pymunk}
  (action : ndarray) (env : AirHockeyEnv) :
  (step action env = inl IndexError <-> (length action < 2)%nat) /\
  ((exists r env', step action env = inr (r, env'))
   <-> (2 <= length action)%nat).
Proof.
  destruct (step_outcome action env)
    as [(Hshape & r & env' & Hstep & _) | (Hnot & Hraise)];
    unfold well_shaped in *.
  - split; split.
    + rewrite Hstep. discriminate.
    + lia.
    + intros _. exact Hshape.
    + intros _. exists r, env'. exact Hstep.
  - split; split.
    + intros _. lia.
    + intros _. exact Hraise.
    + intros (r & env' & Hstep). rewrite Hraise in Hstep. discriminate.
    + intros Hshape. contradiction.
Qed.

(** X12.  [step] reads the first two components of the action and nothing
    more: further components change neither the result nor the state. *)
Theorem step_ignores_further_components {engine : Pymunk}
  (a0 a1 : Q) (rest : ndarray) (env : AirHockeyEnv) :
  step (a0 :: a1 :: rest) env = step [a0; a1] env.
Proof.
  assert (Hpush : forall paddle : Body,
             _apply_action paddle (a0 :: a1 :: rest)
             = _apply_action paddle [a0; a1]) by reflexivity.
  unfold step. unfold bind at 1 2. unfold get at 1. cbv beta iota.
  unfold bind at 1. unfold bind at 2.
  rewrite Hpush. reflexivity.
Qed.

(** X13.  For a two-component action, the reward [step] returns is one
    of -10, 0, 0.001 and 10.001; the episode is terminated exactly when the
    ball's y is below 0 or above 700 after the physics update, which is
    exactly when the reward is at most -10 or at least 10. *)
Theorem step_reward_values {engine : Pymunk}
  (action : ndarray) (env : AirHockeyEnv) :
  well_shaped action ->
  returns (step action) env (fun r env' =>
    (reward r == -10 \/ reward r == 0 \/ reward r == 0.001 \/
     reward r == 10.001) /\
    (terminated r = true <-> ball_y env' < 0 \/ 700 < ball_y env') /\
    (terminated r = true <-> reward r <= -10 \/ 10 <= reward r)).
Proof.
  intros Hshape.
  destruct (step_well_shaped action env Hshape)
    as (r & env' & Hstep & Hjudged & _).
  unfold returns. rewrite Hstep. clear Hstep Hshape.
  destruct Hjudged as (_ & _ & Htop & Hbottom & Hplay).
  unfold ball_y. cbv delta [height] in *.
  set (by_ := y (position (ball (space env')))) in *. clearbody by_.
  inv_constants.
  destruct (Qlt_le_dec by_ 0) as [Hlt | Hge].
  - destruct (Htop Hlt) as (Hterm & Hreward). clear Htop Hbottom Hplay.
    split; [right; right; right; lra |].
    split; (split; [intros _ | intros _; exact Hterm]).
    + left. lra.
    + right. lra.
  - destruct (Qlt_le_dec 700 by_) as [Hgt | Hle].
    + destruct (Hbottom Hgt) as (Hterm & Hreward). clear Htop Hbottom Hplay.
      split; [left; lra |].
      split; (split; [intros _ | intros _; exact Hterm]).
      * right. lra.
      * left. lra.
    + destruct (Hplay (conj Hge Hle)) as (Hterm & Hupper & Hlower).
      clear Htop Hbottom Hplay.
      destruct (Qlt_le_dec by_ 350) as [Hhalf | Hhalf].
      * assert (Hreward : reward r == 0.001) by (apply Hupper; lra).
        clear Hupper Hlower.
        split; [right; right; left; exact Hreward |].
        rewrite Hterm.
        split; (split; [discriminate | intros [H | H]; lra]).
      * assert (Hreward : reward r == 0) by (apply Hlower; lra).
        clear Hupper Hlower.
        split; [right; left; exact Hreward |].
        rewrite Hterm.
        split; (split; [discriminate | intros [H | H]; lra]).
Qed.

Lemma step_reward_values_witness :
  well_shaped zero_action /\
  returns (step (engine := Ballistic) zero_action) env_top_goal
    (fun r env' =>
       (reward r == -10 \/ reward r == 0 \/ reward r == 0.001 \/
        reward r == 10.001) /\
       (terminated r = true <-> ball_y env' < 0 \/ 700 < ball_y env') /\
       (terminated r = true <-> reward r <= -10 \/ 10 <= reward r)).
Proof.
  assert (Hshape : well_shaped zero_action) by (unfold well_shaped; cbn; lia).
  split; [exact Hshape |].
  exact (step_reward_values (engine := Ballistic) zero_action env_top_goal
           Hshape).
Defined.

(** X14.  Whatever the engine does, the observation [step] returns has 8
    entries and its paddle entries are bounded by the constraints: the AI
    paddle's x in [1/20, 19/20] and y in [25/700, 325/700], the agent
    paddle's x in [1/20, 19/20] and y in [375/700, 675/700]. *)
Theorem step_observation_paddles {engine : Pymunk}
  (action : ndarray) (env : AirHockeyEnv) :
  well_shaped action ->
  returns (step action) env (fun r env' =>
    obs r = _get_obs env' /\
    length (obs r) = 8%nat /\
    (1 # 20 <= nth 4 (obs r) 0 <= 19 # 20 /\
     25 # 700 <= nth 5 (obs r) 0 <= 325 # 700) /\
    (1 # 20 <= nth 6 (obs r) 0 <= 19 # 20 /\
     375 # 700 <= nth 7 (obs r) 0 <= 675 # 700)).
Proof.
  intros Hshape.
  destruct (step_well_shaped action env Hshape)
    as (r & env' & Hstep & Hjudged & _ & Hagent & Hai).
  unfold returns. rewrite Hstep. clear Hstep.
  destruct Hjudged as (Hobs & _).
  split; [exact Hobs |]. rewrite Hobs. clear Hobs.
  unfold agent_in_half, ai_in_half in *. cbv zeta in *.
  destruct Hagent as (Hax & Hay). destruct Hai as (Hix & Hiy).
  unfold _get_obs. cbv zeta. cbn [nth length].
  table_constants.
  split; [reflexivity |]. repeat split; lra.
Qed.

Lemma step_observation_paddles_witness :
  well_shaped [3; -7] /\
  returns (step (engine := Ballistic) [3; -7]) env_upper_half
    (fun r env' =>
       obs r = _get_obs env' /\
       length (obs r) = 8%nat /\
       (1 # 20 <= nth 4 (obs r) 0 <= 19 # 20 /\
        25 # 700 <= nth 5 (obs r) 0 <= 325 # 700) /\
       (1 # 20 <= nth 6 (obs r) 0 <= 19 # 20 /\
        375 # 700 <= nth 7 (obs r) 0 <= 675 # 700)).
Proof.
  assert (Hshape : well_shaped [3; -7]) by (unfold well_shaped; cbn; lia).
  split; [exact Hshape |].
  exact (step_observation_paddles (engine := Ballistic) [3; -7]
           env_upper_half Hshape).
Defined.

(** X15.  Along any run of two-component actions, from any state: the
    counter ends [length actions] higher, the bot flag is kept, every call
    returns, and truncation is monotone: once a call returns
    truncated = true, every later call of the run does too. *)
Theorem truncation_is_monotone {engine : Pymunk}
  (actions : list ndarray) (env : AirHockeyEnv) :
  Forall well_shaped actions ->
  returns (run actions) env (fun rs env' =>
    length rs = length actions /\
    steps env' = (steps env + Z.of_nat (length actions))%Z /\
    with_bot env' = with_bot env /\
    forall (i j : nat) (ri rj : StepResult),
      (i <= j)%nat ->
      nth_error rs i = Some ri -> nth_error rs j = Some rj ->
      truncated ri = true -> truncated rj = true).
Proof.
  intros Hshapes.
  destruct (run_counts actions Hshapes env)
    as (rs & env' & Hrun & Hlen & Htr).
  destruct (run_outcome actions Hshapes env)
    as (rs2 & env2 & Hrun2 & Hsteps & Hbot).
  rewrite Hrun in Hrun2. injection Hrun2 as <- <-.
  unfold returns. rewrite Hrun.
  split; [exact Hlen |]. split; [exact Hsteps |]. split; [exact Hbot |].
  intros i j ri rj Hij Hi Hj.
  rewrite (Htr i ri Hi), (Htr j rj Hj).
  rewrite !Z.ltb_lt. lia.
Qed.

Lemma truncation_is_monotone_witness :
  Forall well_shaped [zero_action; [3; -7]] /\
  returns (run (engine := Ballistic) [zero_action; [3; -7]])
    (mid_episode {| x := 200; y := 200 |} {| x := 120; y := 60 |} 2000)
    (fun rs env' =>
       steps env' = 2002%Z /\
       forall r, In r rs -> truncated r = true).
Proof.
  assert (Hshapes : Forall well_shaped [zero_action; [3; -7]])
    by (repeat constructor; unfold well_shaped; cbn; lia).
  split; [exact Hshapes |].
  generalize (truncation_is_monotone (engine := Ballistic)
                [zero_action; [3; -7]]
                (mid_episode {| x := 200; y := 200 |}
                   {| x := 120; y := 60 |} 2000) Hshapes).
  unfold returns.
  destruct (run [zero_action; [3; -7]]
              (mid_episode {| x := 200; y := 200 |}
                 {| x := 120; y := 60 |} 2000))
    as [e | [rs env']] eqn:Hrun; [exact (fun H => H) |].
  intros (Hlen & Hsteps & _ & Hmono).
  split; [exact Hsteps |].
  intros r Hin.
  destruct (In_nth_error rs r Hin) as (j & Hj).
  destruct rs as [| r0 rs']; [destruct j; discriminate |].
  assert (Hfirst : truncated r0 = true).
  { revert Hrun. vm_compute. intros Hrun.
    injection Hrun as <- _ _. reflexivity. }
  apply (Hmono 0%nat j r0 r); [lia | reflexivity | exact Hj | exact Hfirst].
Defined.

(** X16.  The banner of [play_game] agrees with what [step] returned: when
    the step terminated the episode the text is never empty, it is
    "YOU WIN!" exactly when the reward is positive (the ball left through
    the top, y < 0) and "AI WINS!" exactly when it is negative (the ball
    left through the bottom, y > 700); when it did not, the text is
    empty. *)
Theorem banner_matches_outcome {engine : Pymunk}
  (action : ndarray) (env : AirHockeyEnv) :
  well_shaped action ->
  returns (step action) env (fun r env' =>
    let text := fst (game_over_banner env') in
    (terminated r = true ->
     text <> EmptyString /\
     (text = "YOU WIN!"%string <-> 0 < reward r) /\
     (text = "AI WINS!"%string <-> reward r < 0)) /\
    (terminated r = false -> text = EmptyString)).
Proof.
  intros Hshape.
  destruct (step_well_shaped action env Hshape)
    as (r & env' & Hstep & Hjudged & _).
  unfold returns. rewrite Hstep. clear Hstep Hshape.
  destruct Hjudged as (_ & _ & Htop & Hbottom & Hplay).
  cbv zeta. unfold game_over_banner. cbv zeta.
  set (by_ := y (position (ball (space env')))) in *. clearbody by_.
  destruct (Qlt_le_dec by_ 0) as [Hlt | Hge].
  - destruct (Htop Hlt) as (Hterm & Hreward). clear Htop Hbottom Hplay.
    cbn [fst]. split.
    + intros _. split; [discriminate |].
      split; (split; intros H); try reflexivity; try discriminate H;
        try lra; exfalso; lra.
    + rewrite Hterm. discriminate.
  - destruct (Qlt_le_dec height by_) as [Hgt | Hle].
    + destruct (Hbottom Hgt) as (Hterm & Hreward). clear Htop Hbottom Hplay.
      cbn [fst]. split.
      * intros _. split; [discriminate |].
        split; (split; intros H); try reflexivity; try discriminate H;
          try lra; exfalso; lra.
      * rewrite Hterm. discriminate.
    + destruct (Hplay (conj Hge Hle)) as (Hterm & _).
      cbn [fst]. split.
      * rewrite Hterm. discriminate.
      * intros _. reflexivity.
Qed.

Lemma banner_matches_outcome_witness :
  well_shaped zero_action /\
  returns (step (engine := Ballistic) zero_action) env_top_goal
    (fun r env' =>
       terminated r = true /\
       fst (game_over_banner env') = "YOU WIN!"%string /\ 0 < reward r).
Proof.
  assert (Hshape : well_shaped zero_action) by (unfold well_shaped; cbn; lia).
  split; [exact Hshape |].
  generalize (banner_matches_outcome (engine := Ballistic)
                zero_action env_top_goal Hshape).
  unfold returns. rewrite step_into_top_goal. cbv zeta.
  intros (Hwhen & _).
  cbn [terminated reward] in *.
  destruct (Hwhen eq_refl) as (_ & Hwin & _).
  assert (Hpos : 0 < 10.001) by lra.
  split; [reflexivity |]. split; [apply Hwin; exact Hpos | exact Hpos].
Defined.

(* ===================================================================== *)
(** ** One frame of play mode *)

Lemma banner_text_nonempty (r : StepResult) (env' : AirHockeyEnv) :
  judged r env' -> terminated r = true ->
  fst (game_over_banner env') <> EmptyString.
Proof.
  intros (_ & _ & _ & _ & Hplay) Hterm.
  unfold game_over_banner. cbv zeta.
  destruct (Qlt_le_dec (y (position (ball (space env')))) 0) as [Hlt | Hge];
    [cbn [fst]; discriminate |].
  destruct (Qlt_le_dec height (y (position (ball (space env')))))
    as [Hgt | Hle]; [cbn [fst]; discriminate |].
  destruct (Hplay (conj Hge Hle)) as (Hfalse & _).
  rewrite Hterm in Hfalse. discriminate.
Qed.

(** X17.  When the policy answers with at least two components, a frame of
    [play_game] never raises, whatever the mouse position.  It keeps the bot
    flag and leaves both paddles on their own halves.  If the step neither
    terminated nor truncated the episode, the counter is one higher and no
    banner is shown; if it did either, the environment is back at the
    start of an episode; and a terminating step always shows a banner with
    a non-empty text. *)
Theorem play_frame_outcome {engine : Pymunk}
  (predict : ndarray -> ndarray) (mouse_x mouse_y : Q)
  (launch launch' : Vec2d) (env : AirHockeyEnv) :
  well_shaped (predict (fake_obs env)) ->
  returns (play_frame predict mouse_x mouse_y launch launch') env
    (fun out env' =>
       let r := fst out in
       with_bot env' = with_bot env /\
       agent_in_half env' /\ ai_in_half env' /\
       (terminated r = false -> truncated r = false ->
        steps env' = (steps env + 1)%Z /\ snd out = None) /\
       (terminated r = true \/ truncated r = true -> at_start env') /\
       (terminated r = true ->
        exists b, snd out = Some b /\ fst b <> EmptyString)).
Proof.
  intros Hshape.
  destruct (well_shaped_inv _ Hshape) as (a0 & a1 & rest & Hpred).
  unfold returns, play_frame.
  cbv [bind get lift modify ret].
  rewrite Hpred.
  cbv [_apply_action getitem np_clip_array map nth_error].
  match goal with
  | |- context [step [0; 0] ?e] => set (env1 := e)
  end.
  assert (Hbot1 : with_bot env1 = with_bot env) by reflexivity.
  assert (Hsteps1 : steps env1 = steps env) by reflexivity.
  clearbody env1.
  destruct (step_outcome [0; 0] env1)
    as [(_ & r & env2 & Hstep & Hjudged & Hsteps & Hbot & Hagent & Hai)
       | (Hnot & _)];
    [| exfalso; apply Hnot; unfold well_shaped; cbn; lia].
  rewrite Hstep. cbv beta iota.
  destruct (reset_run launch env2)
    as (e1 & Hr1 & Hb1 & Hs1 & _ & Hag1 & Hai1).
  destruct (reset_run launch' e1)
    as (e2 & Hr2 & Hb2 & Hs2 & _ & Hag2 & Hai2).
  destruct (reset_run launch' env2)
    as (e3 & Hr3 & Hb3 & Hs3 & _ & Hag3 & Hai3).
  pose proof (banner_text_nonempty r env2 Hjudged) as Hbanner.
  destruct (terminated r) eqn:Hterm; destruct (truncated r) eqn:Htrunc;
    cbv beta iota.
  - rewrite Hr1. cbv beta iota. rewrite Hr2. cbn [fst snd].
    rewrite Hterm, Htrunc.
    split; [congruence |]. split; [exact Hag2 |]. split; [exact Hai2 |].
    split; [discriminate |]. split; [intros _; exact Hs2 |].
    intros _. eexists. split; [reflexivity | apply Hbanner; reflexivity].
  - rewrite Hr1. cbv beta iota. cbn [fst snd].
    rewrite Hterm, Htrunc.
    split; [congruence |]. split; [exact Hag1 |]. split; [exact Hai1 |].
    split; [discriminate |]. split; [intros _; exact Hs1 |].
    intros _. eexists. split; [reflexivity | apply Hbanner; reflexivity].
  - rewrite Hr3. cbn [fst snd].
    rewrite Hterm, Htrunc.
    split; [congruence |]. split; [exact Hag3 |]. split; [exact Hai3 |].
    split; [discriminate |]. split; [intros _; exact Hs3 |].
    discriminate.
  - cbn [fst snd]. rewrite Hterm, Htrunc.
    split; [congruence |]. split; [exact Hagent |]. split; [exact Hai |].
    split; [intros _ _; split; [lia | reflexivity] |].
    split; [intros [H | H]; discriminate | discriminate].
Qed.

Lemma play_frame_outcome_witness :
  well_shaped ((fun _ : ndarray => [3; -7]) (fake_obs at_rest)) /\
  returns (play_frame (engine := Ballistic) (fun _ => [3; -7]) 120 40
             {| x := 0; y := 0 |} {| x := 0; y := 0 |}) at_rest
    (fun out env' =>
       agent_in_half env' /\ ai_in_half env' /\
       with_bot env' = false).
Proof.
  assert (Hshape : well_shaped ((fun _ : ndarray => [3; -7])
                                  (fake_obs at_rest)))
    by (unfold well_shaped; cbn; lia).
  split; [exact Hshape |].
  generalize (play_frame_outcome (engine := Ballistic) (fun _ => [3; -7])
                120 40 {| x := 0; y := 0 |} {| x := 0; y := 0 |} at_rest
                Hshape).
  unfold returns.
  destruct (play_frame (fun _ => [3; -7]) 120 40 {| x := 0; y := 0 |}
              {| x := 0; y := 0 |} at_rest)
    as [e | [out env']]; [exact (fun H => H) |].
  intros (Hbot & Hagent & Hai & _).
  split; [exact Hagent |]. split; [exact Hai |]. exact Hbot.
Defined.
